(* Shallow embedding of the wallet input plugins of OM1
   (src/inputs/plugins/wallet_base.py, wallet_ethereum.py,
   wallet_solana.py, wallet_coinbase.py).

   Python floats are IEEE-754 binary64 numbers; they are modelled by the
   Standard Library's executable specification of binary floating point
   (SpecFloat) with precision 53 and maximal exponent 1024, so that the
   rounding done by [float(...)], [+], [-] and the ".5f" format of the
   source is reproduced exactly. *)

From Stdlib Require Import ZArith List String Ascii Bool Lia.
From Stdlib Require Import Floats.SpecFloat.
Import ListNotations.
Open Scope string_scope.
Open Scope list_scope.
Open Scope Z_scope.

(* ------------------------------------------------------------------ *)
(** * Python floats (binary64) *)

Module PyFloat.

Definition prec : Z := 53.
Definition emax : Z := 1024.

Definition float := spec_float.

Definition zero : float := S754_zero false.

(** [a + b], [a - b] and [a * b] on Python floats. *)
Definition add (a b : float) : float := SFadd prec emax a b.
Definition sub (a b : float) : float := SFsub prec emax a b.
Definition mul (a b : float) : float := SFmul prec emax a b.

(** [a < b] on Python floats (false as soon as one side is a NaN). *)
Definition ltb (a b : float) : bool := SFltb a b.

(** Round-half-to-even of the rational [num / den] ([den > 0], [num >= 0]). *)
Definition round_half_even_div (num den : Z) : Z :=
  let q := num / den in
  let r := num mod den in
  match Z.compare (2 * r) den with
  | Lt => q
  | Gt => q + 1
  | Eq => if Z.even q then q else q + 1
  end.

(** The exact value [m * 2^e] of a finite float scaled by [10^5] and rounded
    half-to-even to an integer: the number of units of [0.00001] that the
    ".5f" format prints (CPython formats the exact binary value, rounding
    ties to even). *)
Definition scaled_5 (m : positive) (e : Z) : Z :=
  if 0 <=? e then Zpos m * 2 ^ e * 10 ^ 5
  else round_half_even_div (Zpos m * 10 ^ 5) (2 ^ (- e)).

(** Decimal digits of a natural number. *)
Fixpoint uint_chars (d : Decimal.uint) : list ascii :=
  match d with
  | Decimal.Nil => []
  | Decimal.D0 d => "0"%char :: uint_chars d
  | Decimal.D1 d => "1"%char :: uint_chars d
  | Decimal.D2 d => "2"%char :: uint_chars d
  | Decimal.D3 d => "3"%char :: uint_chars d
  | Decimal.D4 d => "4"%char :: uint_chars d
  | Decimal.D5 d => "5"%char :: uint_chars d
  | Decimal.D6 d => "6"%char :: uint_chars d
  | Decimal.D7 d => "7"%char :: uint_chars d
  | Decimal.D8 d => "8"%char :: uint_chars d
  | Decimal.D9 d => "9"%char :: uint_chars d
  end.

Definition digits (n : Z) : list ascii := uint_chars (N.to_uint (Z.to_N n)).

Definition pad_left (w : nat) (l : list ascii) : list ascii :=
  app (repeat "0"%char (w - List.length l)) l.

(** [n] units of [0.00001] written with five fractional digits. *)
Definition fixed_5 (neg : bool) (n : Z) : list ascii :=
  app (if neg then ["-"%char] else [])
    (app (digits (n / 10 ^ 5)) ("."%char :: pad_left 5 (digits (n mod 10 ^ 5)))).

(** [f"{x:.5f}"]. *)
Definition format_5f (x : float) : string :=
  match x with
  | S754_zero s => string_of_list_ascii (fixed_5 s 0)
  | S754_infinity s => if s then "-inf" else "inf"
  | S754_nan => "nan"
  | S754_finite s m e => string_of_list_ascii (fixed_5 s (scaled_5 m e))
  end.

Definition is_digit (c : ascii) : bool :=
  let n := nat_of_ascii c in (48 <=? n)%nat && (n <=? 57)%nat.

Definition digits_value (l : list ascii) : Z :=
  fold_left (fun acc c => acc * 10 + (Z.of_nat (nat_of_ascii c) - 48)) l 0.

(** The float nearest to [n / 10^k], ties to even ([n >= 0]): what a
    correctly rounded decimal-to-binary conversion returns. *)
Definition decimal_to_float (neg : bool) (n : Z) (k : nat) : float :=
  match n with
  | Zpos p =>
      let '(q, e, l) := SFdiv_core_binary prec emax (Zpos p) 0 (10 ^ Z.of_nat k) 0 in
      binary_round_aux prec emax neg q e l
  | _ => S754_zero neg
  end.

Fixpoint split_dot (l : list ascii) : list ascii * option (list ascii) :=
  match l with
  | [] => ([], None)
  | c :: t =>
      if Ascii.eqb c "."%char then ([], Some t)
      else let '(a, b) := split_dot t in (c :: a, b)
  end.

Definition strip_sign (l : list ascii) : bool * list ascii :=
  match l with
  | c :: t =>
      if Ascii.eqb c "-"%char then (true, t)
      else if Ascii.eqb c "+"%char then (false, t)
      else (false, l)
  | [] => (false, [])
  end.

(** An optional sign, then decimal digits with an optional fractional
    part, at least one digit in all. *)
Definition parse_decimal (l : list ascii) : option float :=
  let '(neg, body) := strip_sign l in
  let '(ip, fp) := split_dot body in
  let fd := match fp with Some f => f | None => [] end in
  if forallb is_digit ip && forallb is_digit fd
     && negb (Nat.eqb (List.length (app ip fd)) 0)
  then Some (decimal_to_float neg (digits_value (app ip fd)) (List.length fd))
  else None.

(** [float(s)] for the strings written by [format_5f]: a decimal number or
    one of [inf], [-inf], [nan].  CPython's [float] also accepts exponents,
    blanks and underscores, which no string of the modelled code contains;
    [None] is the [ValueError] raised on anything outside this grammar. *)
Definition py_float (s : string) : option float :=
  let l := list_ascii_of_string s in
  match parse_decimal l with
  | Some v => Some v
  | None =>
      match l with
      | ["i"; "n"; "f"]%char => Some (S754_infinity false)
      | ["-"; "i"; "n"; "f"]%char => Some (S754_infinity true)
      | ["n"; "a"; "n"]%char => Some S754_nan
      | _ => None
      end
  end.

(** [x < num / den] on the exact (real) value of [x], for [den > 0]. *)
Definition exact_lt_ratio (x : float) (num den : Z) : bool :=
  match x with
  | S754_finite s m e =>
      let v := cond_Zopp s (Zpos m) in
      if 0 <=? e then v * 2 ^ e * den <? num else v * den <? num * 2 ^ (- e)
  | S754_zero _ => 0 <? num
  | S754_infinity s => s
  | S754_nan => false
  end.

(** A float literal of the source, e.g. [lit "12.5"]. *)
Definition lit (s : string) : float :=
  match py_float s with Some f => f | None => S754_nan end.

End PyFloat.

(* ------------------------------------------------------------------ *)
(** * Python values shared by the plugins *)

Module Py.

(** Outcome of a Python call: a value, or an exception, written as the
    last line of its traceback: ["<class>: <message>"]. *)
Inductive outcome (A : Type) : Type :=
| Ok (a : A)
| Raise (exn : string).
Arguments Ok {A} a.
Arguments Raise {A} exn.

(** Truthiness of [os.environ.get(...)]: [None] and [""] are false. *)
Definition truthy (o : option string) : bool :=
  match o with
  | Some s => negb (String.eqb s "")
  | None => false
  end.

Definition get_default (o : option string) (d : string) : string :=
  match o with Some s => s | None => d end.

(** [str.upper] on ASCII letters. *)
Definition upper_char (c : ascii) : ascii :=
  let n := nat_of_ascii c in
  if (97 <=? n)%nat && (n <=? 122)%nat then ascii_of_nat (n - 32) else c.

Fixpoint upper (s : string) : string :=
  match s with
  | EmptyString => EmptyString
  | String c t => String (upper_char c) (upper t)
  end.

Definition nl : string := String (ascii_of_nat 10) EmptyString.

(** Class and [str(e)] of an exception written ["<class>: <message>"]. *)
Fixpoint split_exc (e : string) : string * string :=
  match e with
  | EmptyString => (EmptyString, EmptyString)
  | String ":" (String " " msg) => (EmptyString, msg)
  | String c rest => let '(cls, msg) := split_exc rest in (String c cls, msg)
  end.

Definition exc_class (e : string) : string := fst (split_exc e).
Definition str_exc (e : string) : string := snd (split_exc e).

(** The built-in classes that derive from [BaseException] but not from
    [Exception], with [asyncio.CancelledError] and the [PanicException]
    that PyO3 extensions (solders) raise when their Rust code panics. *)
Definition BASE_ONLY : list string :=
  ["BaseException"; "BaseExceptionGroup"; "GeneratorExit"; "KeyboardInterrupt";
   "SystemExit"; "asyncio.CancelledError"; "pyo3_runtime.PanicException"].

(** Whether [except Exception] catches the exception. *)
Definition is_Exception (e : string) : bool :=
  negb (existsb (String.eqb (exc_class e)) BASE_ONLY).

End Py.

Import PyFloat Py.

(* ------------------------------------------------------------------ *)
(** * The wallet object (wallet_base.py and the attributes of its subclasses) *)

Module Wallet.

(** [@dataclass Message]. *)
Record Message := mkMessage {
  timestamp : float;
  message : string
}.

(** One call of [IOProvider().add_input(name, text, timestamp)]. *)
Record IOInput := mkIOInput {
  io_name : string;
  io_text : string;
  io_timestamp : float
}.

(** A Coinbase CDP [Wallet] object as returned by [Wallet.fetch]. *)
Record CbWallet := mkCbWallet {
  cbw_default_address : string;
  cbw_balance : string -> outcome float   (* float(wallet.balance(asset)), a CDP query *)
}.

(** Attributes set by the constructor of each subclass.  A key is
    represented by the address it signs for. *)
Inductive Backend :=
| Ethereum (provider_url : string) (account_address : string)
    (account : option string) (simulate_transfers : bool)
| Solana (rpc_url : string) (wallet_address : string) (pubkey : string)
    (keypair : option string)
| Coinbase (coinbase_wallet_id : string) (wallet : CbWallet).

Record WalletState := mkWalletState {
  class_name : string;
  primary_asset : string;
  balance : float;
  balance_previous : float;
  messages : list Message;
  io_inputs : list IOInput;    (* what the shared IOProvider received *)
  backend : Backend
}.

Definition set_balances (st : WalletState) (b bp : float) : WalletState :=
  mkWalletState (class_name st) (primary_asset st) b bp
    (messages st) (io_inputs st) (backend st).

Definition set_buffer (st : WalletState) (ms : list Message) (io : list IOInput)
  : WalletState :=
  mkWalletState (class_name st) (primary_asset st) (balance st)
    (balance_previous st) ms io (backend st).

Definition set_backend (st : WalletState) (b : Backend) : WalletState :=
  mkWalletState (class_name st) (primary_asset st) (balance st)
    (balance_previous st) (messages st) (io_inputs st) b.

(** [WalletBase._poll] once [fetch_balance] has returned [fetched]
    (the sleep is not modelled): the new state and [[balance, change]]. *)
Definition poll_step (st : WalletState) (fetched : float)
  : WalletState * list float :=
  let balance_change := sub fetched (balance_previous st) in
  (set_balances st fetched fetched, [fetched; balance_change]).

(** [WalletBase._poll] with the backend's [fetch_balance]: an exception of
    [fetch_balance] leaves [_poll] before any assignment. *)
Definition poll (fetch : WalletState -> outcome float * WalletState)
    (st : WalletState) : outcome (list float) * WalletState :=
  match fetch st with
  | (Ok v, st1) => let '(st2, r) := poll_step st1 v in (Ok r, st2)
  | (Raise e, st1) => (Raise e, st1)
  end.

(** [WalletBase._raw_to_text]; [now] is the value of [time.time()]. *)
Definition _raw_to_text (now : float) (raw_input : list float)
  : outcome (option Message) :=
  match nth_error raw_input 1 with
  | None => Raise "IndexError: list index out of range"
  | Some balance_change =>
      if ltb zero balance_change
      then Ok (Some (mkMessage now (format_5f balance_change)))
      else Ok None
  end.

(** [WalletBase.raw_to_text]. *)
Definition raw_to_text (now : float) (raw_input : list float) (st : WalletState)
  : outcome unit * WalletState :=
  match _raw_to_text now raw_input with
  | Raise e => (Raise e, st)
  | Ok None => (Ok tt, st)
  | Ok (Some m) => (Ok tt, set_buffer st (messages st ++ [m]) (io_inputs st))
  end.

(** The loop [transaction_sum += float(message.message)]; [None] is the
    [ValueError] of [float]. *)
Fixpoint sum_messages (acc : float) (ms : list Message) : option float :=
  match ms with
  | [] => Some acc
  | m :: t =>
      match py_float (message m) with
      | Some v => sum_messages (add acc v) t
      | None => None
      end
  end.

Definition summary_text (asset : string) (transaction_sum : float) : string :=
  "You just received " ++ format_5f transaction_sum ++ " " ++ upper asset ++ ".".

Definition wrap_result (cls text : string) : string :=
  nl ++ cls ++ " INPUT" ++ nl ++ "// START" ++ nl ++ text ++ nl ++ "// END" ++ nl.

(** [WalletBase.formatted_latest_buffer]. *)
Definition formatted_latest_buffer (st : WalletState)
  : outcome (option string) * WalletState :=
  match messages st with
  | [] => (Ok None, st)
  | m0 :: _ =>
      match sum_messages zero (messages st) with
      | None => (Raise "ValueError: could not convert string to float", st)
      | Some transaction_sum =>
          let last_message := last (messages st) m0 in
          let text := summary_text (primary_asset st) transaction_sum in
          let result := wrap_result (class_name st) text in
          (Ok (Some result),
           set_buffer st []
             (io_inputs st ++ [mkIOInput (class_name st) text (timestamp last_message)]))
      end
  end.

(** One iteration of the input loop of the host ([FuserInput]): [_poll]
    with the fetched balance, then [raw_to_text] on what [_poll] returned.
    [now] is [time.time()] during [raw_to_text]. *)
Definition cycle (now fetched : float) (st : WalletState) : WalletState * list float :=
  let '(st1, raw) := poll_step st fetched in
  (snd (raw_to_text now raw st1), raw).

Fixpoint run_cycles (st : WalletState) (samples : list (float * float)) : WalletState :=
  match samples with
  | [] => st
  | (now, v) :: rest => run_cycles (fst (cycle now v st)) rest
  end.

(** States the plugin can reach from a freshly constructed one: the
    constructors leave the buffer empty, and only [_poll],
    [raw_to_text] and [formatted_latest_buffer] change it afterwards. *)
Inductive reachable : WalletState -> Prop :=
| reach_init st : messages st = [] -> reachable st
| reach_poll st v : reachable st -> reachable (fst (poll_step st v))
| reach_raw st now raw : reachable st -> reachable (snd (raw_to_text now raw st))
| reach_flush st : reachable st -> reachable (snd (formatted_latest_buffer st)).

(** Every buffered message holds a float written by [f"{x:.5f}"]. *)
Definition buffer_wf (ms : list Message) : Prop :=
  Forall (fun m => exists x, message m = format_5f x) ms.




End Wallet.

(* ------------------------------------------------------------------ *)
(** * The three backends (wallet_ethereum.py, wallet_solana.py,
      wallet_coinbase.py) *)

Module Backends.
Import Wallet.

(** [os.environ.get(...)] for the variables the constructors read. *)
Record Env := mkEnv {
  ETH_ADDRESS : option string;
  ETH_PRIVATE_KEY : option string;
  SOLANA_RPC_URL : option string;
  SOLANA_WALLET_ADDRESS : option string;
  SOLANA_PRIVATE_KEY : option string;
  COINBASE_WALLET_ID : option string;
  COINBASE_API_KEY : option string;
  COINBASE_API_SECRET : option string
}.

(** The attributes of [SensorConfig] that are read ([None]: absent). *)
Record Config := mkConfig {
  cfg_primary_asset : option string;
  cfg_provider_url : option string;
  cfg_simulate_transfers : option bool
}.

(** The fields of the transaction dict built by [WalletEthereum.transfer]. *)
Record EthTx := mkEthTx {
  tx_nonce : Z; tx_to : string; tx_value : Z; tx_gas : Z; tx_gasPrice : Z; tx_chainId : Z
}.

(** The network requests the plugins issue, in the order they issue them. *)
Inductive NetCall :=
| EthIsConnected
| EthBlockNumber
| EthGetBalance (address : string)
| EthGetTransactionCount (address : string)
| EthGasPrice
| EthChainId
| EthSendRawTransaction
| SolGetBalance (pubkey : string)
| SolGetLatestBlockhash
| SolSendTransaction
| CbWalletFetch (wallet_id : string)
| CbBalance (asset : string)
| CbTransfer
| CbWait
| CbSignPayload.

(** Answers of the remote services (RPC nodes, Coinbase CDP); [Raise] is
    an exception of the client library (network error, rejection). *)
Record Net := mkNet {
  eth_is_connected : bool;
  eth_block_number : outcome Z;
  eth_get_balance : string -> outcome Z;                  (* wei *)
  eth_get_transaction_count : string -> outcome Z;
  eth_gas_price : outcome Z;
  eth_chain_id : outcome Z;
  eth_send_raw_transaction : string -> outcome string;    (* raw tx -> hash *)
  sol_get_balance : string -> outcome (option Z);         (* .value, lamports *)
  sol_get_latest_blockhash : outcome string;
  sol_send_transaction : string -> outcome string;
  cb_wallet_fetch : string -> outcome CbWallet;
  cb_transfer : CbWallet -> float -> string -> string -> outcome string;
  cb_wait : string -> outcome unit;
  cb_sign_payload : CbWallet -> string -> outcome string
}.

(** Local library code (key handling, address parsing, signing) and the
    random source; none of it does network I/O.  Keys are represented by
    the address they sign for. *)
Record Lib := mkLib {
  eth_account_from_key : string -> outcome string;        (* Account.from_key(k).address *)
  eth_to_checksum_address : string -> outcome string;
  eth_to_wei : float -> outcome Z;
  eth_sign_transaction : string -> EthTx -> outcome string;
  eth_sign_message : string -> string -> outcome string;
  sol_keypair_from_b58 : string -> outcome string;        (* base58 + Keypair.from_bytes *)
  sol_pubkey_from_string : string -> outcome string;
  sol_transfer_ix : string -> string -> Z -> outcome string;
  sol_build_signed_tx : string -> string -> string -> outcome string;
  sol_sign_message : string -> string -> outcome string;
  random_randint_0_10 : Z
}.

(** Code that may raise and issues network calls: an exception monad that
    records the calls issued so far. *)
Definition M (A : Type) : Type := list NetCall -> outcome A * list NetCall.

Definition ret {A} (a : A) : M A := fun tr => (Ok a, tr).
Definition raise {A} (e : string) : M A := fun tr => (Raise e, tr).
Definition bind {A B} (m : M A) (k : A -> M B) : M B :=
  fun tr => match m tr with
            | (Ok a, tr') => k a tr'
            | (Raise e, tr') => (Raise e, tr')
            end.
(** A network request: issued, then answered. *)
Definition call {A} (c : NetCall) (r : outcome A) : M A := fun tr => (r, tr ++ [c]).
(** A local library call. *)
Definition local {A} (r : outcome A) : M A := fun tr => (r, tr).

Notation "x <- m ;; k" := (bind m (fun x => k)) (at level 61, m at next level, right associativity).

Definition run {A} (m : M A) : outcome A * list NetCall := m [].

(** [float(Web3.from_wei(wei, "ether"))] and [lamports / 1_000_000_000]:
    the float nearest to the exact quotient. *)
Definition ratio_to_float (n : Z) (k : nat) : float :=
  decimal_to_float (n <? 0) (Z.abs n) k.

(** [int(x)]: truncation toward zero. *)
Definition py_int (x : float) : outcome Z :=
  match x with
  | S754_zero _ => Ok 0
  | S754_finite s m e =>
      Ok (cond_Zopp s (if 0 <=? e then Zpos m * 2 ^ e else Zpos m / 2 ^ (- e)))
  | S754_infinity _ => Raise "OverflowError: cannot convert float infinity to integer"
  | S754_nan => Raise "ValueError: cannot convert float NaN to integer"
  end.

Definition READ_ONLY_ERROR : string := "No private key configured (read-only mode)".

(** [WalletEthereum.__init__]; [io] is the content of the shared IOProvider. *)
Definition eth_init (lib : Lib) (net : Net) (env : Env) (cfg : Config) (io : list IOInput)
  : M WalletState :=
  let primary := get_default (cfg_primary_asset cfg) "eth" in
  let provider := get_default (cfg_provider_url cfg) "https://eth.llamarpc.com" in
  let address := get_default (ETH_ADDRESS env) "0xd8dA6BF26964aF9D7eEd9e03E53415D37aA96045" in
  account <- (if truthy (ETH_PRIVATE_KEY env)
              then a <- local (eth_account_from_key lib (get_default (ETH_PRIVATE_KEY env) ""));;
                   ret (Some a)
              else ret None);;
  let simulate := match cfg_simulate_transfers cfg with Some b => b | None => false end in
  connected <- call EthIsConnected (Ok (eth_is_connected net));;
  if negb connected then raise ("Exception: Failed to connect to Ethereum at " ++ provider)
  else
    wei <- call (EthGetBalance address) (eth_get_balance net address);;
    let b := ratio_to_float wei 18 in
    ret (mkWalletState "WalletEthereum" primary b b [] io
           (Ethereum provider address account simulate)).

(** [WalletSolana.__init__]. *)
Definition sol_init (lib : Lib) (net : Net) (env : Env) (cfg : Config) (io : list IOInput)
  : M WalletState :=
  let primary := get_default (cfg_primary_asset cfg) "sol" in
  let rpc := get_default (SOLANA_RPC_URL env) "https://api.mainnet-beta.solana.com" in
  if negb (truthy (SOLANA_WALLET_ADDRESS env))
  then raise "ValueError: SOLANA_WALLET_ADDRESS environment variable is not set"
  else
    let address := get_default (SOLANA_WALLET_ADDRESS env) "" in
    keypair <- (if truthy (SOLANA_PRIVATE_KEY env)
                then match sol_keypair_from_b58 lib (get_default (SOLANA_PRIVATE_KEY env) "") with
                     | Ok kp => ret (Some kp)
                     | Raise e =>
                         if is_Exception e then ret None   (* logged, read-only mode *)
                         else raise e
                     end
                else ret None);;
    pubkey <- local (sol_pubkey_from_string lib address);;
    resp <- call (SolGetBalance pubkey) (sol_get_balance net pubkey);;
    match resp with
    | None => raise ("ConnectionError: Failed to get balance from Solana RPC: " ++ rpc)
    | Some lamports =>
        let b := ratio_to_float lamports 9 in
        ret (mkWalletState "WalletSolana" primary b b [] io (Solana rpc address pubkey keypair))
    end.

(** [WalletCoinbase.__init__] ([Cdp.configure] only stores the keys). *)
Definition cb_init (net : Net) (env : Env) (cfg : Config) (io : list IOInput)
  : M WalletState :=
  let primary := get_default (cfg_primary_asset cfg) "eth" in
  if negb (truthy (COINBASE_API_KEY env)) || negb (truthy (COINBASE_API_SECRET env))
  then raise "ValueError: Missing Coinbase API credentials"
  else if negb (truthy (COINBASE_WALLET_ID env))
  then raise "ValueError: COINBASE_WALLET_ID environment variable is not set"
  else
    let wid := get_default (COINBASE_WALLET_ID env) "" in
    w <- call (CbWalletFetch wid) (cb_wallet_fetch net wid);;
    b <- call (CbBalance primary) (cbw_balance w primary);;
    ret (mkWalletState "WalletCoinbase" primary b b [] io (Coinbase wid w)).

(** [fetch_balance(asset)] of the three subclasses.  Ethereum and Solana
    catch what [except Exception] catches and return [self.balance];
    Coinbase has no handler and assigns [self.wallet] before reading the
    balance. *)
Definition fetch_balance (lib : Lib) (net : Net) (st : WalletState) (asset : string)
  : outcome float * WalletState * list NetCall :=
  match backend st with
  | Ethereum _ address _ simulate =>
      let body : M float :=
        _ <- call EthBlockNumber (eth_block_number net);;
        wei <- call (EthGetBalance address) (eth_get_balance net address);;
        let balance_eth := ratio_to_float wei 18 in
        if simulate && (7 <? random_randint_0_10 lib)
        then ret (add balance_eth (lit "1.0"))
        else ret balance_eth in
      match run body with
      | (Ok v, tr) => (Ok v, st, tr)
      | (Raise e, tr) => if is_Exception e then (Ok (balance st), st, tr) else (Raise e, st, tr)
      end
  | Solana _ _ pubkey _ =>
      let body : M float :=
        resp <- call (SolGetBalance pubkey) (sol_get_balance net pubkey);;
        match resp with
        | None => raise "ValueError: Failed to fetch balance from Solana"
        | Some lamports => ret (ratio_to_float lamports 9)
        end in
      match run body with
      | (Ok v, tr) => (Ok v, st, tr)
      | (Raise e, tr) => if is_Exception e then (Ok (balance st), st, tr) else (Raise e, st, tr)
      end
  | Coinbase wid _ =>
      match cb_wallet_fetch net wid with
      | Raise e => (Raise e, st, [CbWalletFetch wid])
      | Ok w =>
          let st1 := set_backend st (Coinbase wid w) in
          (cbw_balance w asset, st1, [CbWalletFetch wid; CbBalance asset])
      end
  end.

(** The dict returned by [transfer]; absent keys are [None]. *)
Record TransferResult := mkTransferResult {
  transaction_hash : option string;
  status : string;
  amount : float;
  asset : string;
  to_address : string;
  from_address : option string;
  error : option string
}.

(** The dict returned by [sign_message]. *)
Record SignResult := mkSignResult {
  signature : option string;
  signed_message : string;
  address : string;
  sign_status : string;
  sign_error : option string
}.

Definition transfer_failed (amt : float) (asset to e : string) : TransferResult :=
  mkTransferResult None "failed" amt asset to None (Some e).

(** [transfer(to_address, amount, asset)] of the three subclasses: the
    state after the call (no attribute is assigned), the dict returned (or
    the exception that escapes [except Exception]), and the network requests
    issued. *)
Definition transfer (lib : Lib) (net : Net) (st : WalletState)
    (to : string) (amt : float) (asset : string)
  : WalletState * outcome TransferResult * list NetCall :=
  let handle (r : outcome TransferResult * list NetCall) :=
    match r with
    | (Ok res, tr) => (st, Ok res, tr)
    | (Raise e, tr) =>
        if is_Exception e then (st, Ok (transfer_failed amt asset to (str_exc e)), tr)
        else (st, Raise e, tr)
    end in
  match backend st with
  | Ethereum _ _ None _ => (st, Ok (transfer_failed amt asset to READ_ONLY_ERROR), [])
  | Ethereum _ _ (Some acct) _ =>
      handle (run (
        to_checksum <- local (eth_to_checksum_address lib to);;
        nonce <- call (EthGetTransactionCount acct) (eth_get_transaction_count net acct);;
        gas_price <- call EthGasPrice (eth_gas_price net);;
        value <- local (eth_to_wei lib amt);;
        chain_id <- call EthChainId (eth_chain_id net);;
        signed <- local (eth_sign_transaction lib acct
                           (mkEthTx nonce to_checksum value 21000 gas_price chain_id));;
        h <- call EthSendRawTransaction (eth_send_raw_transaction net signed);;
        ret (mkTransferResult (Some h) "pending" amt asset to (Some acct) None)))
  | Solana _ _ _ None => (st, Ok (transfer_failed amt asset to READ_ONLY_ERROR), [])
  | Solana _ _ _ (Some kp) =>
      handle (run (
        recipient <- local (sol_pubkey_from_string lib to);;
        lamports <- local (py_int (mul amt (lit "1000000000")));;
        ix <- local (sol_transfer_ix lib kp recipient lamports);;
        blockhash <- call SolGetLatestBlockhash (sol_get_latest_blockhash net);;
        tx <- local (sol_build_signed_tx lib kp ix blockhash);;
        sig <- call SolSendTransaction (sol_send_transaction net tx);;
        ret (mkTransferResult (Some sig) "pending" amt asset to (Some kp) None)))
  | Coinbase _ w =>
      handle (run (
        h <- call CbTransfer (cb_transfer net w amt asset to);;
        _ <- call CbWait (cb_wait net h);;
        ret (mkTransferResult (Some h) "completed" amt asset to
               (Some (cbw_default_address w)) None)))
  end.

(** [sign_message(message)] of the three subclasses. *)
Definition sign_message (lib : Lib) (net : Net) (st : WalletState) (msg : string)
  : WalletState * outcome SignResult * list NetCall :=
  let failed (address e : string) :=
    if is_Exception e then Ok (mkSignResult None msg address "failed" (Some (str_exc e)))
    else Raise e in
  match backend st with
  | Ethereum _ address None _ =>
      (st, Ok (mkSignResult None msg address "failed" (Some READ_ONLY_ERROR)), [])
  | Ethereum _ address (Some acct) _ =>
      match eth_sign_message lib acct msg with
      | Ok sig => (st, Ok (mkSignResult (Some sig) msg acct "success" None), [])
      | Raise e => (st, failed address e, [])
      end
  | Solana _ address _ None =>
      (st, Ok (mkSignResult None msg address "failed" (Some READ_ONLY_ERROR)), [])
  | Solana _ address _ (Some kp) =>
      match sol_sign_message lib kp msg with
      | Ok sig => (st, Ok (mkSignResult (Some sig) msg kp "success" None), [])
      | Raise e => (st, failed address e, [])
      end
  | Coinbase _ w =>
      match cb_sign_payload net w msg with
      | Ok sig => (st, Ok (mkSignResult (Some sig) msg (cbw_default_address w) "success" None),
                   [CbSignPayload])
      | Raise e => (st, failed (cbw_default_address w) e, [CbSignPayload])
      end
  end.

(** A computation only appends to the record of network requests. *)
Definition extends {A} (m : M A) : Prop :=
  forall tr, exists tr', snd (m tr) = tr ++ tr'.

End Backends.

(* ------------------------------------------------------------------ *)
(** * The remaining methods of the plugins and the polling step *)

Module Plugin.
Import Wallet Backends.

(** [get_wallet_address()] of the three subclasses: [self.ACCOUNT_ADDRESS],
    [self.wallet_address] and [self.wallet.default_address.address_id]. *)
Definition get_wallet_address (st : WalletState) : string :=
  match backend st with
  | Ethereum _ address _ _ => address
  | Solana _ address _ _ => address
  | Coinbase _ w => cbw_default_address w
  end.

(** [get_supported_assets()] of the three subclasses. *)
Definition get_supported_assets (st : WalletState) : list string :=
  match backend st with
  | Ethereum _ _ _ _ => ["eth"]
  | Solana _ _ _ _ => ["sol"]
  | Coinbase _ _ => ["eth"; "usdc"; "weth"; "gwei"]
  end.

(** [WalletBase._poll] with the backend's own
    [fetch_balance(self.primary_asset)]: the result, the state and the
    network requests issued. *)
Definition _poll (lib : Lib) (net : Net) (st : WalletState)
  : outcome (list float) * WalletState * list NetCall :=
  match fetch_balance lib net st (primary_asset st) with
  | (Ok v, st1, tr) => let '(st2, raw) := poll_step st1 v in (Ok raw, st2, tr)
  | (Raise e, st1, tr) => (Raise e, st1, tr)
  end.

(** One iteration of the host's input loop: [_poll], then [raw_to_text]
    on its result; an exception of [_poll] ends the iteration. *)
Definition poll_cycle (now : float) (lib : Lib) (net : Net) (st : WalletState)
  : outcome unit * WalletState * list NetCall :=
  match _poll lib net st with
  | (Ok raw, st1, tr) => let '(r, st2) := raw_to_text now raw st1 in (r, st2, tr)
  | (Raise e, st1, tr) => (Raise e, st1, tr)
  end.

(** The states of a wallet object: built by a constructor that returned,
    then changed by any sequence of method calls, each against any answers
    of the network and of the libraries. *)
Inductive live : WalletState -> Prop :=
| live_eth lib net env cfg io st tr :
    run (eth_init lib net env cfg io) = (Ok st, tr) -> live st
| live_sol lib net env cfg io st tr :
    run (sol_init lib net env cfg io) = (Ok st, tr) -> live st
| live_cb net env cfg io st tr :
    run (cb_init net env cfg io) = (Ok st, tr) -> live st
| live_fetch lib net st a : live st -> live (snd (fst (fetch_balance lib net st a)))
| live_poll lib net st : live st -> live (snd (fst (_poll lib net st)))
| live_raw now raw st : live st -> live (snd (raw_to_text now raw st))
| live_flush st : live st -> live (snd (formatted_latest_buffer st))
| live_transfer lib net st to amt a :
    live st -> live (fst (fst (transfer lib net st to amt a)))
| live_sign lib net st msg : live st -> live (fst (fst (sign_message lib net st msg))).

End Plugin.

(* ------------------------------------------------------------------ *)
(** * Concrete environments used by the examples below *)

Module Fixtures.
Import Wallet Backends.

Definition env_empty : Env := mkEnv None None None None None None None None.
Definition config_default : Config := mkConfig None None None.

Definition cb_wallet0 : CbWallet :=
  mkCbWallet "0xC0FFEE" (fun _ => Ok (lit "1.5")).

(** Local library code that succeeds. *)
Definition lib_ok : Lib :=
  mkLib (fun _ => Ok "0xA11CE") (fun a => Ok a) (fun _ => Ok 0)
        (fun _ _ => Ok "0xf86c") (fun _ _ => Ok "0x5151")
        (fun _ => Ok "KeyPub111") (fun a => Ok a) (fun _ _ _ => Ok "ix")
        (fun _ _ _ => Ok "tx") (fun _ _ => Ok "sig") 0.

(** Every remote service answers. *)
Definition net_ok : Net :=
  mkNet true (Ok 19000000) (fun _ => Ok 2500000000000000000) (fun _ => Ok 7)
        (Ok 30000000000) (Ok 1) (fun _ => Ok "0xabc")
        (fun _ => Ok (Some 2000000000)) (Ok "blockhash") (fun _ => Ok "5sig")
        (fun _ => Ok cb_wallet0) (fun _ _ _ _ => Ok "0xcb") (fun _ => Ok tt)
        (fun _ _ => Ok "cbsig").

(** Every remote service fails. *)
Definition net_down : Net :=
  let e := "ConnectionError: connection refused" in
  mkNet false (Raise e) (fun _ => Raise e) (fun _ => Raise e) (Raise e) (Raise e)
        (fun _ => Raise e) (fun _ => Raise e) (Raise e) (fun _ => Raise e)
        (fun _ => Raise e) (fun _ _ _ _ => Raise e) (fun _ => Raise e)
        (fun _ _ => Raise e).

Definition eth_keyed : WalletState :=
  mkWalletState "WalletEthereum" "eth" (lit "2.5") (lit "2.5") [] []
    (Ethereum "https://eth.llamarpc.com" "0xA11CE" (Some "0xA11CE") false).

Definition sol_keyed : WalletState :=
  mkWalletState "WalletSolana" "sol" (lit "2.0") (lit "2.0") [] []
    (Solana "https://api.mainnet-beta.solana.com" "KeyPub111" "KeyPub111" (Some "KeyPub111")).

Definition cb_state : WalletState :=
  mkWalletState "WalletCoinbase" "eth" (lit "1.5") (lit "1.5") [] []
    (Coinbase "wallet-1" cb_wallet0).


(** What [WalletEthereum()] builds from an empty environment. *)
Definition eth_ro : WalletState :=
  mkWalletState "WalletEthereum" "eth" (ratio_to_float 2500000000000000000 18)
    (ratio_to_float 2500000000000000000 18) [] []
    (Ethereum "https://eth.llamarpc.com" "0xd8dA6BF26964aF9D7eEd9e03E53415D37aA96045" None false).

(** ETH_ADDRESS names one account, ETH_PRIVATE_KEY holds the key of another. *)
Definition env_split : Env :=
  mkEnv (Some "0xB0B") (Some "0x4c0883a6") None None None None None None.

(** What [WalletEthereum()] builds from [env_split]. *)
Definition eth_split : WalletState :=
  mkWalletState "WalletEthereum" "eth" (ratio_to_float 2500000000000000000 18)
    (ratio_to_float 2500000000000000000 18) [] []
    (Ethereum "https://eth.llamarpc.com" "0xB0B" (Some "0xA11CE") false).

(** Only SOLANA_WALLET_ADDRESS is set. *)
Definition env_sol : Env := mkEnv None None None (Some "KeyPub111") None None None None.

(** Coinbase accepts a transfer, then waiting for it fails. *)
Definition net_wait_fails : Net :=
  mkNet true (Ok 19000000) (fun _ => Ok 2500000000000000000) (fun _ => Ok 7)
        (Ok 30000000000) (Ok 1) (fun _ => Ok "0xabc")
        (fun _ => Ok (Some 2000000000)) (Ok "blockhash") (fun _ => Ok "5sig")
        (fun _ => Ok cb_wallet0) (fun _ _ _ _ => Ok "0xcb")
        (fun _ => Raise "TimeoutError: transfer not confirmed")
        (fun _ _ => Ok "cbsig").

(** ETH_PRIVATE_KEY is set, ETH_ADDRESS is not. *)
Definition env_eth_key : Env := mkEnv None (Some "0x4c0883a6") None None None None None None.

(** ETH_ADDRESS is set, ETH_PRIVATE_KEY is not. *)
Definition env_eth_address : Env := mkEnv (Some "0xB0B") None None None None None None None.

(** SOLANA_WALLET_ADDRESS is set and SOLANA_PRIVATE_KEY is not base58. *)
Definition env_sol_badkey : Env :=
  mkEnv None None None (Some "KeyPub111") (Some "0OIl") None None None.

(** Local library code whose base58 decoding rejects the key. *)
Definition lib_bad_key : Lib :=
  mkLib (fun _ => Ok "0xA11CE") (fun a => Ok a) (fun _ => Ok 0)
        (fun _ _ => Ok "0xf86c") (fun _ _ => Ok "0x5151")
        (fun _ => Raise "ValueError: Invalid character '0'") (fun a => Ok a)
        (fun _ _ _ => Ok "ix") (fun _ _ _ => Ok "tx") (fun _ _ => Ok "sig") 0.

(** Local library code whose Rust side (solders) panics on the key. *)
Definition lib_panic_key : Lib :=
  mkLib (fun _ => Ok "0xA11CE") (fun a => Ok a) (fun _ => Ok 0)
        (fun _ _ => Ok "0xf86c") (fun _ _ => Ok "0x5151")
        (fun _ => Raise "pyo3_runtime.PanicException: called `Result::unwrap()` on an `Err` value")
        (fun a => Ok a) (fun _ _ _ => Ok "ix") (fun _ _ _ => Ok "tx") (fun _ _ => Ok "sig") 0.

(** Every remote service answers, except that decoding the Solana balance
    reply panics in solders. *)
Definition net_sol_panic : Net :=
  mkNet true (Ok 19000000) (fun _ => Ok 2500000000000000000) (fun _ => Ok 7)
        (Ok 30000000000) (Ok 1) (fun _ => Ok "0xabc")
        (fun _ => Raise "pyo3_runtime.PanicException: invalid account data")
        (Ok "blockhash") (fun _ => Ok "5sig")
        (fun _ => Ok cb_wallet0) (fun _ _ _ _ => Ok "0xcb") (fun _ => Ok tt)
        (fun _ _ => Ok "cbsig").

(** A read-only Ethereum wallet after one positive change of 0.5. *)
Definition eth_one_receipt : WalletState :=
  snd (raw_to_text zero [lit "3.0"; lit "0.5"] eth_ro).

End Fixtures.

(* ------------------------------------------------------------------ *)
(** * Theorems: the balance-diff pipeline and the event buffer *)

Module PipelineFacts.
Import Wallet Fixtures.

Lemma uint_chars_digits : forall d, forallb is_digit (uint_chars d) = true.
Proof. induction d; simpl; auto. Qed.

Lemma digits_all_digits : forall n, forallb is_digit (digits n) = true.
Proof. intros n. apply uint_chars_digits. Qed.

Lemma pad_left_digits : forall w l,
  forallb is_digit l = true -> forallb is_digit (pad_left w l) = true.
Proof.
  intros w l H. unfold pad_left. rewrite forallb_app, H, andb_true_r.
  induction (w - List.length l)%nat; simpl; auto.
Qed.

Lemma pad_left_length : forall w l, (w <= List.length (pad_left w l))%nat.
Proof.
  intros w l. unfold pad_left. rewrite length_app, repeat_length. lia.
Qed.

Lemma split_dot_digits : forall l r,
  forallb is_digit l = true -> split_dot (l ++ "."%char :: r) = (l, Some r).
Proof.
  induction l as [|c l IH]; intros r H; simpl; [reflexivity|].
  simpl in H. apply andb_prop in H as [Hc Hl].
  destruct (Ascii.eqb_spec c "."%char) as [->|_]; [discriminate|].
  rewrite IH by exact Hl. reflexivity.
Qed.

Lemma strip_sign_digits : forall l r,
  forallb is_digit l = true -> strip_sign (l ++ "."%char :: r) = (false, l ++ "."%char :: r).
Proof.
  intros [|c l] r H; [reflexivity|]. simpl in H. apply andb_prop in H as [Hc _].
  simpl. destruct (Ascii.eqb_spec c "-"%char) as [->|_]; [discriminate|].
  destruct (Ascii.eqb_spec c "+"%char) as [->|_]; [discriminate|]. reflexivity.
Qed.

Lemma parse_decimal_fixed_5 : forall neg n,
  parse_decimal (fixed_5 neg n) =
  Some (decimal_to_float neg
          (digits_value (digits (n / 10 ^ 5) ++ pad_left 5 (digits (n mod 10 ^ 5))))
          (List.length (pad_left 5 (digits (n mod 10 ^ 5))))).
Proof.
  intros neg n. unfold parse_decimal, fixed_5.
  assert (Hs : strip_sign ((if neg then ["-"%char] else []) ++
     digits (n / 10 ^ 5) ++ "."%char :: pad_left 5 (digits (n mod 10 ^ 5)))
     = (neg, digits (n / 10 ^ 5) ++ "."%char :: pad_left 5 (digits (n mod 10 ^ 5)))).
  { destruct neg; [reflexivity|]. apply strip_sign_digits, uint_chars_digits. }
  rewrite Hs, split_dot_digits by apply digits_all_digits.
  rewrite digits_all_digits, pad_left_digits by apply digits_all_digits. cbn [andb].
  assert (Hl := pad_left_length 5 (digits (n mod 10 ^ 5))).
  destruct (Nat.eqb_spec (List.length (digits (n / 10 ^ 5) ++ pad_left 5 (digits (n mod 10 ^ 5)))) 0) as [E|_]; cbn [negb].
  - rewrite length_app in E. lia.
  - reflexivity.
Qed.

Lemma py_float_format_5f : forall x, exists v, py_float (format_5f x) = Some v.
Proof.
  intros [s|s| |s m e]; unfold format_5f, py_float.
  - rewrite list_ascii_of_string_of_list_ascii, parse_decimal_fixed_5. eauto.
  - destruct s; simpl; eauto.
  - simpl; eauto.
  - rewrite list_ascii_of_string_of_list_ascii, parse_decimal_fixed_5. eauto.
Qed.

Lemma raw_to_text_balances : forall now raw st,
  balance_previous (snd (raw_to_text now raw st)) = balance_previous st
  /\ balance st = balance (snd (raw_to_text now raw st)).
Proof.
  intros now raw st. unfold raw_to_text.
  destruct (_raw_to_text now raw) as [[m|]|e]; simpl; auto.
Qed.

Lemma cycle_previous : forall now v st, balance_previous (fst (cycle now v st)) = v.
Proof.
  intros now v st. unfold cycle, poll_step. simpl.
  rewrite (proj1 (raw_to_text_balances _ _ _)). reflexivity.
Qed.

(** C5: after the cycle of sample [k], [balance_previous] is the value
    fetched by that cycle, whatever the sign of its change. *)
Theorem poll_previous_is_last_sample (st : WalletState) (samples : list (float * float))
  (k : nat) (now v : float) (Hk : nth_error samples k = Some (now, v)) :
  balance_previous (run_cycles st (firstn (S k) samples)) = v.
Proof.
  revert st samples Hk. induction k as [|k IH]; intros st [|[t x] l] Hk; try discriminate.
  - simpl in Hk. injection Hk as -> ->. simpl. apply cycle_previous.
  - simpl in Hk. change (firstn (S (S k)) ((t, x) :: l)) with ((t, x) :: firstn (S k) l).
    simpl. apply IH. exact Hk.
Qed.

Lemma poll_previous_is_last_sample_witness :
  nth_error [(lit "1", lit "10.0"); (lit "2", lit "7.5")] 1 = Some (lit "2", lit "7.5") /\
  balance_previous (run_cycles (mkWalletState "WalletEthereum" "eth" zero zero [] []
     (Ethereum "u" "a" None false)) (firstn 2 [(lit "1", lit "10.0"); (lit "2", lit "7.5")])) = lit "7.5".
Proof.
  split; [reflexivity|]. apply (poll_previous_is_last_sample _ _ 1 (lit "2")). reflexivity.
Defined.

(** C6: balances 10.0, 10.0, 12.5, 12.5, 11.0 on "eth" from a previous
    balance of 10.0 give the changes 0, 2.5, 0, -1.5 after the first cycle;
    a flush after the third cycle reports "You just received 2.50000 ETH.";
    the negative change of the fifth cycle records nothing and the next
    flush is empty. *)
Theorem eth_scenario (cls : string) (b : float) (io : list IOInput) (be : Backend)
  (t1 t2 t3 t4 t5 : float) :
  let st0 := mkWalletState cls "eth" b (lit "10.0") [] io be in
  let '(s1, r1) := cycle t1 (lit "10.0") st0 in
  let '(s2, r2) := cycle t2 (lit "10.0") s1 in
  let '(s3, r3) := cycle t3 (lit "12.5") s2 in
  let '(out3, f3) := formatted_latest_buffer s3 in
  let '(s4, r4) := cycle t4 (lit "12.5") f3 in
  let '(s5, r5) := cycle t5 (lit "11.0") s4 in
  map (fun r => nth 1 r S754_nan) [r2; r3; r4; r5] = [lit "0.0"; lit "2.5"; lit "0.0"; lit "-1.5"]
  /\ messages s2 = []
  /\ out3 = Ok (Some (wrap_result cls "You just received 2.50000 ETH."))
  /\ io_inputs f3 = io ++ [mkIOInput cls "You just received 2.50000 ETH." t3]
  /\ messages s5 = []
  /\ formatted_latest_buffer s5 = (Ok None, s5)
  /\ io_inputs s5 = io_inputs f3.
Proof. vm_compute. repeat split. Qed.


Lemma sum_messages_app : forall ms m acc,
  sum_messages acc (ms ++ [m]) =
  match sum_messages acc ms with
  | Some s => option_map (add s) (py_float (message m))
  | None => None
  end.
Proof.
  induction ms as [|m0 ms IH]; intros m acc; simpl.
  - destruct (py_float (message m)); reflexivity.
  - destruct (py_float (message m0)); [apply IH|reflexivity].
Qed.

Lemma sum_messages_wf : forall ms acc, buffer_wf ms -> exists s, sum_messages acc ms = Some s.
Proof.
  induction ms as [|m ms IH]; intros acc H; simpl; [eauto|].
  inversion H as [|? ? [x Hx] Hms]; subst.
  rewrite Hx. destruct (py_float_format_5f x) as [v ->]. apply IH, Hms.
Qed.

Lemma raw_to_text_wf : forall now raw st,
  buffer_wf (messages st) -> buffer_wf (messages (snd (raw_to_text now raw st))).
Proof.
  intros now raw st H. unfold raw_to_text, _raw_to_text.
  destruct (nth_error raw 1) as [d|]; simpl; [|exact H].
  destruct (ltb zero d); simpl; [|exact H].
  apply Forall_app. split; [exact H|]. constructor; [eexists; reflexivity|constructor].
Qed.

Lemma flush_messages : forall st,
  messages (snd (formatted_latest_buffer st)) = [] \/
  snd (formatted_latest_buffer st) = st.
Proof.
  intros st. unfold formatted_latest_buffer.
  destruct (messages st); [right; reflexivity|].
  destruct (sum_messages zero _); [left; reflexivity|right; reflexivity].
Qed.

Lemma reachable_wf : forall st, reachable st -> buffer_wf (messages st).
Proof.
  induction 1 as [st H|st v _ IH|st now raw _ IH|st _ IH].
  - rewrite H. constructor.
  - exact IH.
  - apply raw_to_text_wf, IH.
  - destruct (flush_messages st) as [E|E]; rewrite E; [constructor|exact IH].
Qed.

(** C8: on every reachable state, a flush of an empty buffer returns
    [None], and a flush succeeds and is followed by a flush that returns
    [None]. *)
Theorem flush_twice_empty (st : WalletState) (Hr : reachable st) :
  (messages st = [] -> formatted_latest_buffer st = (Ok None, st)) /\
  exists r st1, formatted_latest_buffer st = (Ok r, st1) /\
                formatted_latest_buffer st1 = (Ok None, st1).
Proof.
  split.
  - intros E. unfold formatted_latest_buffer. rewrite E. reflexivity.
  - apply reachable_wf in Hr. unfold formatted_latest_buffer.
    destruct (messages st) as [|m0 ms] eqn:E.
    + exists None, st. rewrite E. auto.
    + destruct (sum_messages_wf (m0 :: ms) zero Hr) as [s Hs]. rewrite Hs.
      eexists; eexists; split; [reflexivity|]. reflexivity.
Qed.

Lemma flush_twice_empty_witness :
  let st := snd (raw_to_text (lit "1") [lit "3.0"; lit "1.25"]
                 (mkWalletState "WalletSolana" "sol" zero zero [] [] (Solana "u" "a" "a" None))) in
  reachable st /\
  exists r st1, formatted_latest_buffer st = (Ok r, st1) /\
                formatted_latest_buffer st1 = (Ok None, st1).
Proof.
  intros st. assert (H : reachable st) by (apply reach_raw, reach_init; reflexivity).
  split; [exact H|]. apply (flush_twice_empty st H).
Defined.

Lemma scaled_5_tiny : forall m e,
  exact_lt_ratio (S754_finite false m e) 5 1000000 = true -> scaled_5 m e = 0.
Proof.
  intros m e H. unfold exact_lt_ratio, cond_Zopp in H. unfold scaled_5.
  destruct (Z.leb_spec 0 e) as [He|He].
  - apply Z.ltb_lt in H. assert (0 < 2 ^ e) by (apply Z.pow_pos_nonneg; lia). nia.
  - apply Z.ltb_lt in H. unfold round_half_even_div.
    assert (Hd : 0 < 2 ^ (- e)) by (apply Z.pow_pos_nonneg; lia).
    assert (Hn : Zpos m * 10 ^ 5 < 2 ^ (- e)) by lia.
    rewrite Z.div_small, Z.mod_small by lia.
    replace (2 * (Zpos m * 10 ^ 5) ?= 2 ^ (- e)) with Lt by (symmetry; apply Z.compare_lt_iff; lia).
    reflexivity.
Qed.

Lemma format_5f_tiny : forall d,
  ltb zero d = true -> exact_lt_ratio d 5 1000000 = true -> format_5f d = "0.00000".
Proof.
  intros [s|s| |s m e] Hp Hs; try discriminate.
  - destruct s; discriminate.
  - destruct s; [discriminate|]. unfold format_5f. rewrite scaled_5_tiny by exact Hs. reflexivity.
Qed.

Lemma add_zero_r : forall s, s <> S754_zero true -> add s zero = s.
Proof. intros [[|]|[|]| |? ? ?] H; try reflexivity. congruence. Qed.

(** C10: a positive change below 0.000005 is recorded as the event
    "0.00000", whose amount reads back as 0.0: it leaves any other (non
    negative-zero) sum unchanged, and alone it is reported as
    "You just received 0.00000 <ASSET>.". *)
Theorem tiny_delta_reports_zero (st : WalletState) (now b d : float)
  (Hpos : ltb zero d = true) (Hsmall : exact_lt_ratio d 5 1000000 = true) :
  let ev := mkMessage now "0.00000" in
  raw_to_text now [b; d] st = (Ok tt, set_buffer st (messages st ++ [ev]) (io_inputs st))
  /\ py_float (message ev) = Some zero
  /\ (forall s, sum_messages zero (messages st) = Some s -> s <> S754_zero true ->
        sum_messages zero (messages st ++ [ev]) = Some s)
  /\ (messages st = [] ->
        fst (formatted_latest_buffer (set_buffer st [ev] (io_inputs st))) =
        Ok (Some (wrap_result (class_name st)
                   ("You just received 0.00000 " ++ upper (primary_asset st) ++ ".")))).
Proof.
  intros ev. split; [|split; [reflexivity|split]].
  - unfold raw_to_text, _raw_to_text. simpl. rewrite Hpos, format_5f_tiny by assumption.
    reflexivity.
  - intros s Hs Hn. rewrite sum_messages_app, Hs. simpl. rewrite add_zero_r by exact Hn.
    reflexivity.
  - intros _. reflexivity.
Qed.

Lemma tiny_delta_reports_zero_witness :
  ltb zero (lit "0.000004") = true /\ exact_lt_ratio (lit "0.000004") 5 1000000 = true /\
  raw_to_text (lit "7") [lit "1.000004"; lit "0.000004"]
    (mkWalletState "WalletEthereum" "eth" zero zero [] [] (Ethereum "u" "a" None false))
  = (Ok tt, set_buffer (mkWalletState "WalletEthereum" "eth" zero zero [] [] (Ethereum "u" "a" None false))
              [mkMessage (lit "7") "0.00000"] []).
Proof.
  split; [reflexivity|split; [reflexivity|]].
  exact (proj1 (tiny_delta_reports_zero _ (lit "7") (lit "1.000004") (lit "0.000004")
                  eq_refl eq_refl)).
Defined.





Lemma last_default : forall (A : Type) (l : list A) d1 d2, l <> [] -> last l d1 = last l d2.
Proof.
  intros A l d1 d2. induction l as [|x [|y l] IH]; intros H; [congruence|reflexivity|].
  apply IH. discriminate.
Qed.

Lemma last_map_default : forall (A B : Type) (f : A -> B) (l : list A) d,
  last (map f l) (f d) = f (last l d).
Proof.
  intros A B f l d. induction l as [|x [|y l] IH]; [reflexivity|reflexivity|].
  exact IH.
Qed.





End PipelineFacts.

(* ------------------------------------------------------------------ *)
(** * Theorems: the backends *)

Module BackendFacts.
Import Wallet Backends Fixtures.

(** C2 (code bug): when the network is down, the Coinbase [fetch_balance]
    propagates the exception of [Wallet.fetch], while the Ethereum and
    Solana ones return the last known balance. *)
Lemma coinbase_fetch_propagates_network_error :
  fetch_balance lib_ok net_down cb_state "eth" =
    (Raise "ConnectionError: connection refused", cb_state, [CbWalletFetch "wallet-1"])
  /\ fetch_balance lib_ok net_down eth_keyed "eth" =
    (Ok (balance eth_keyed), eth_keyed, [EthBlockNumber])
  /\ fetch_balance lib_ok net_down sol_keyed "sol" =
    (Ok (balance sol_keyed), sol_keyed, [SolGetBalance "KeyPub111"]).
Proof. repeat split. Qed.

(** C3 (counterexample): with a key, a transfer of amount 0 reaches the
    network and comes back "pending" (Ethereum, Solana) or "completed"
    (Coinbase). *)
Lemma transfer_zero_counterexample :
  transfer lib_ok net_ok eth_keyed "0x000000000000000000000000000000000000dEaD" (lit "0.0") "eth" =
    (eth_keyed,
     Ok (mkTransferResult (Some "0xabc") "pending" (lit "0.0") "eth"
       "0x000000000000000000000000000000000000dEaD" (Some "0xA11CE") None),
     [EthGetTransactionCount "0xA11CE"; EthGasPrice; EthChainId; EthSendRawTransaction])
  /\ transfer lib_ok net_ok sol_keyed "11111111111111111111111111111111" (lit "0.0") "sol" =
    (sol_keyed,
     Ok (mkTransferResult (Some "5sig") "pending" (lit "0.0") "sol"
       "11111111111111111111111111111111" (Some "KeyPub111") None),
     [SolGetLatestBlockhash; SolSendTransaction])
  /\ transfer lib_ok net_ok cb_state "0x000000000000000000000000000000000000dEaD" (lit "0.0") "eth" =
    (cb_state,
     Ok (mkTransferResult (Some "0xcb") "completed" (lit "0.0") "eth"
       "0x000000000000000000000000000000000000dEaD" (Some "0xC0FFEE") None),
     [CbTransfer; CbWait]).
Proof. repeat split. Qed.

Lemma extends_ret : forall A (a : A), extends (ret a).
Proof. intros A a tr. exists []. rewrite app_nil_r. reflexivity. Qed.

Lemma extends_raise : forall A e, extends (@raise A e).
Proof. intros A e tr. exists []. rewrite app_nil_r. reflexivity. Qed.

Lemma extends_call : forall A c (r : outcome A), extends (call c r).
Proof. intros A c r tr. exists [c]. reflexivity. Qed.

Lemma extends_local : forall A (r : outcome A), extends (local r).
Proof. intros A r tr. exists []. rewrite app_nil_r. reflexivity. Qed.

Lemma extends_bind : forall A B (m : M A) (k : A -> M B),
  extends m -> (forall a, extends (k a)) -> extends (bind m k).
Proof.
  intros A B m k Hm Hk tr. unfold bind. destruct (Hm tr) as [t1 E1].
  destruct (m tr) as [[a|e] tr1]; simpl in E1; subst tr1.
  - destruct (Hk a (tr ++ t1)) as [t2 E2]. exists (t1 ++ t2). rewrite E2, app_assoc. reflexivity.
  - exists t1. reflexivity.
Qed.

Create HintDb trace.
#[local] Hint Resolve extends_ret extends_raise extends_call extends_local extends_bind : trace.

Lemma run_local_call : forall A B C (r : outcome A) (a : A) (c : NetCall) (r2 : outcome B)
    (k : A -> B -> M C),
  r = Ok a -> (forall a b, extends (k a b)) ->
  exists tr, snd (run (x <- local r;; y <- call c r2;; k x y)) = c :: tr.
Proof.
  intros A B C r a c r2 k -> Hk. unfold run, bind, local, call. simpl.
  destruct r2 as [b|e]; simpl.
  - destruct (Hk a b [c]) as [tr E]. exists tr. exact E.
  - exists []. reflexivity.
Qed.

Lemma handle_trace : forall (st : WalletState) amt asset to
    (r : outcome TransferResult * list NetCall),
  snd (match r with
       | (Ok res, tr) => (st, Ok res, tr)
       | (Raise e, tr) =>
           if is_Exception e then (st, Ok (transfer_failed amt asset to (str_exc e)), tr)
           else (st, Raise e, tr)
       end) = snd r.
Proof. intros st amt asset to [[res|e] tr]; [reflexivity|destruct (is_Exception e); reflexivity]. Qed.

Lemma eth_transfer_trace : forall lib net acct to amt asset c,
  eth_to_checksum_address lib to = Ok c ->
  exists tr, snd (run (
    to_checksum <- local (eth_to_checksum_address lib to);;
    nonce <- call (EthGetTransactionCount acct) (eth_get_transaction_count net acct);;
    gas_price <- call EthGasPrice (eth_gas_price net);;
    value <- local (eth_to_wei lib amt);;
    chain_id <- call EthChainId (eth_chain_id net);;
    signed <- local (eth_sign_transaction lib acct
                       (mkEthTx nonce to_checksum value 21000 gas_price chain_id));;
    h <- call EthSendRawTransaction (eth_send_raw_transaction net signed);;
    ret (mkTransferResult (Some h) "pending" amt asset to (Some acct) None)))
  = EthGetTransactionCount acct :: tr.
Proof.
  intros lib net acct to amt asset c Hc.
  apply (run_local_call _ _ _ _ c _ _ _ Hc). intros; auto 10 with trace.
Qed.

Lemma eth_transfer_local_failure : forall lib net acct to amt asset e,
  eth_to_checksum_address lib to = Raise e ->
  run (
    to_checksum <- local (eth_to_checksum_address lib to);;
    nonce <- call (EthGetTransactionCount acct) (eth_get_transaction_count net acct);;
    gas_price <- call EthGasPrice (eth_gas_price net);;
    value <- local (eth_to_wei lib amt);;
    chain_id <- call EthChainId (eth_chain_id net);;
    signed <- local (eth_sign_transaction lib acct
                       (mkEthTx nonce to_checksum value 21000 gas_price chain_id));;
    h <- call EthSendRawTransaction (eth_send_raw_transaction net signed);;
    ret (mkTransferResult (Some h) "pending" amt asset to (Some acct) None))
  = (Raise e, []).
Proof. intros lib net acct to amt asset e He. unfold run, bind at 1, local at 1. rewrite He. reflexivity. Qed.

Lemma sol_transfer_run : forall lib net kp to amt asset,
  run (
    recipient <- local (sol_pubkey_from_string lib to);;
    lamports <- local (py_int (mul amt (lit "1000000000")));;
    ix <- local (sol_transfer_ix lib kp recipient lamports);;
    blockhash <- call SolGetLatestBlockhash (sol_get_latest_blockhash net);;
    tx <- local (sol_build_signed_tx lib kp ix blockhash);;
    sig <- call SolSendTransaction (sol_send_transaction net tx);;
    ret (mkTransferResult (Some sig) "pending" amt asset to (Some kp) None))
  = match sol_pubkey_from_string lib to with
    | Raise e => (Raise e, [])
    | Ok rc =>
      match py_int (mul amt (lit "1000000000")) with
      | Raise e => (Raise e, [])
      | Ok lam =>
        match sol_transfer_ix lib kp rc lam with
        | Raise e => (Raise e, [])
        | Ok ix =>
          match sol_get_latest_blockhash net with
          | Raise e => (Raise e, [SolGetLatestBlockhash])
          | Ok bh =>
            match sol_build_signed_tx lib kp ix bh with
            | Raise e => (Raise e, [SolGetLatestBlockhash])
            | Ok tx =>
              match sol_send_transaction net tx with
              | Raise e => (Raise e, [SolGetLatestBlockhash; SolSendTransaction])
              | Ok sig => (Ok (mkTransferResult (Some sig) "pending" amt asset to (Some kp) None),
                           [SolGetLatestBlockhash; SolSendTransaction])
              end
            end
          end
        end
      end
    end.
Proof.
  intros. unfold run, bind, local, call, ret.
  destruct (sol_pubkey_from_string lib to); [|reflexivity].
  destruct (py_int _); [|reflexivity].
  destruct (sol_transfer_ix _ _ _ _); [|reflexivity].
  destruct (sol_get_latest_blockhash net); [|reflexivity].
  destruct (sol_build_signed_tx _ _ _ _); [|reflexivity].
  destruct (sol_send_transaction net _); reflexivity.
Qed.

Lemma cb_transfer_run : forall net w to amt asset,
  run (
    h <- call CbTransfer (cb_transfer net w amt asset to);;
    _ <- call CbWait (cb_wait net h);;
    ret (mkTransferResult (Some h) "completed" amt asset to (Some (cbw_default_address w)) None))
  = match cb_transfer net w amt asset to with
    | Raise e => (Raise e, [CbTransfer])
    | Ok h =>
      match cb_wait net h with
      | Raise e => (Raise e, [CbTransfer; CbWait])
      | Ok _ => (Ok (mkTransferResult (Some h) "completed" amt asset to
                       (Some (cbw_default_address w)) None), [CbTransfer; CbWait])
      end
    end.
Proof.
  intros net w to amt asset. unfold run, bind, call, ret.
  destruct (cb_transfer net w amt asset to); [|reflexivity].
  destruct (cb_wait net _); reflexivity.
Qed.

Lemma py_int_raise : forall x e, py_int x = Raise e ->
  x = S754_nan \/ exists s, x = S754_infinity s.
Proof. intros [s|s| |s m ex] e H; simpl in H; try discriminate; eauto. Qed.

(** C3 (amended): no backend inspects the amount itself.  For every
    amount, 0 included: Ethereum and Solana without a key answer with the
    read-only error and no request; Ethereum with a key issues
    [get_transaction_count] once the recipient passes the checksum
    conversion; Solana with a keypair issues [get_latest_blockhash] once the
    recipient parses, [int(amount * 1_000_000_000)] succeeds and the
    instruction is built; Coinbase always issues its transfer request first.
    So a transfer issues no request only through the read-only check, a
    failed checksum conversion (Ethereum) or a failed recipient parse,
    lamport conversion or instruction build (Solana), and the lamport
    conversion fails only when [amount * 1_000_000_000] is NaN or
    infinite. *)
Theorem transfer_amount_unchecked (lib : Lib) (net : Net) (st : WalletState)
    (to : string) (amt : float) (asset : string) :
  (forall p a sim, backend st = Ethereum p a None sim ->
     transfer lib net st to amt asset = (st, Ok (transfer_failed amt asset to READ_ONLY_ERROR), []))
  /\ (forall r a pk, backend st = Solana r a pk None ->
     transfer lib net st to amt asset = (st, Ok (transfer_failed amt asset to READ_ONLY_ERROR), []))
  /\ (forall p a acct sim, backend st = Ethereum p a (Some acct) sim ->
     (exists c, eth_to_checksum_address lib to = Ok c) ->
     exists tr, snd (transfer lib net st to amt asset) = EthGetTransactionCount acct :: tr)
  /\ (forall r a pk kp, backend st = Solana r a pk (Some kp) ->
     (exists rc lam ix, sol_pubkey_from_string lib to = Ok rc /\
        py_int (mul amt (lit "1000000000")) = Ok lam /\ sol_transfer_ix lib kp rc lam = Ok ix) ->
     exists tr, snd (transfer lib net st to amt asset) = SolGetLatestBlockhash :: tr)
  /\ (forall wid w, backend st = Coinbase wid w ->
     exists tr, snd (transfer lib net st to amt asset) = CbTransfer :: tr)
  /\ (snd (transfer lib net st to amt asset) = [] ->
      (exists p a sim, backend st = Ethereum p a None sim)
      \/ (exists r a pk, backend st = Solana r a pk None)
      \/ (exists p a acct sim, backend st = Ethereum p a (Some acct) sim /\
            exists e, eth_to_checksum_address lib to = Raise e)
      \/ (exists r a pk kp, backend st = Solana r a pk (Some kp) /\
            ~ exists rc lam ix, sol_pubkey_from_string lib to = Ok rc /\
                py_int (mul amt (lit "1000000000")) = Ok lam /\
                sol_transfer_ix lib kp rc lam = Ok ix))
  /\ (forall e, py_int (mul amt (lit "1000000000")) = Raise e ->
      mul amt (lit "1000000000") = S754_nan \/
      exists s, mul amt (lit "1000000000") = S754_infinity s).
Proof.
  split; [|split; [|split; [|split; [|split; [|split]]]]].
  - intros p a sim Hb. unfold transfer. rewrite Hb. reflexivity.
  - intros r a pk Hb. unfold transfer. rewrite Hb. reflexivity.
  - intros p a acct sim Hb [c Hc]. unfold transfer. rewrite Hb. cbv zeta.
    rewrite handle_trace. exact (eth_transfer_trace lib net acct to amt asset c Hc).
  - intros r a pk kp Hb (rc & lam & ix & H1 & H2 & H3). unfold transfer. rewrite Hb. cbv zeta.
    rewrite handle_trace, sol_transfer_run, H1, H2, H3.
    destruct (sol_get_latest_blockhash net) as [bh|e]; [|exists []; reflexivity].
    destruct (sol_build_signed_tx lib kp ix bh) as [tx|e]; [|exists []; reflexivity].
    destruct (sol_send_transaction net tx); eexists; reflexivity.
  - intros wid w Hb. unfold transfer. rewrite Hb. cbv zeta.
    rewrite handle_trace, cb_transfer_run.
    destruct (cb_transfer net w amt asset to) as [h|e]; [|exists []; reflexivity].
    destruct (cb_wait net h); eexists; reflexivity.
  - intros H. destruct (backend st) as [p a [acct|] sim|r a pk [kp|]|wid w] eqn:Hb.
    + right; right; left. do 4 eexists. split; [reflexivity|].
      destruct (eth_to_checksum_address lib to) as [c|e] eqn:Hc; [|eauto].
      exfalso. unfold transfer in H. rewrite Hb in H. cbv zeta in H.
      rewrite handle_trace in H. destruct (eth_transfer_trace lib net acct to amt asset c Hc) as [tr E].
      rewrite E in H. discriminate.
    + left. eauto.
    + right; right; right. do 4 eexists. split; [reflexivity|].
      intros (rc & lam & ix & H1 & H2 & H3).
      unfold transfer in H. rewrite Hb in H. cbv zeta in H.
      rewrite handle_trace, sol_transfer_run, H1, H2, H3 in H.
      destruct (sol_get_latest_blockhash net) as [bh|e]; [|discriminate].
      destruct (sol_build_signed_tx lib kp ix bh) as [tx|e]; [|discriminate].
      destruct (sol_send_transaction net tx); discriminate.
    + right; left. eauto.
    + exfalso. unfold transfer in H. rewrite Hb in H. cbv zeta in H.
      rewrite handle_trace, cb_transfer_run in H.
      destruct (cb_transfer net w amt asset to) as [h|e]; [|discriminate].
      destruct (cb_wait net h); discriminate.
  - intros e H. exact (py_int_raise _ e H).
Qed.

Lemma transfer_amount_unchecked_witness :
  transfer lib_ok net_ok eth_ro "0x000000000000000000000000000000000000dEaD" (lit "0.0") "eth" =
    (eth_ro, Ok (transfer_failed (lit "0.0") "eth" "0x000000000000000000000000000000000000dEaD"
                   READ_ONLY_ERROR), [])
  /\ (exists tr, snd (transfer lib_ok net_ok eth_keyed "0x000000000000000000000000000000000000dEaD"
                        (lit "0.0") "eth") = EthGetTransactionCount "0xA11CE" :: tr)
  /\ (exists tr, snd (transfer lib_ok net_ok sol_keyed "11111111111111111111111111111111"
                        (lit "0.0") "sol") = SolGetLatestBlockhash :: tr)
  /\ (exists tr, snd (transfer lib_ok net_ok cb_state "0x000000000000000000000000000000000000dEaD"
                        (lit "0.0") "eth") = CbTransfer :: tr)
  /\ ((exists p a sim, backend sol_keyed = Ethereum p a None sim)
      \/ (exists r a pk, backend sol_keyed = Solana r a pk None)
      \/ (exists p a acct sim, backend sol_keyed = Ethereum p a (Some acct) sim /\
            exists e, eth_to_checksum_address lib_ok "11111111111111111111111111111111" = Raise e)
      \/ (exists r a pk kp, backend sol_keyed = Solana r a pk (Some kp) /\
            ~ exists rc lam ix, sol_pubkey_from_string lib_ok "11111111111111111111111111111111" = Ok rc /\
                py_int (mul S754_nan (lit "1000000000")) = Ok lam /\
                sol_transfer_ix lib_ok kp rc lam = Ok ix)).
Proof.
  split; [|split; [|split; [|split]]].
  - exact (proj1 (transfer_amount_unchecked lib_ok net_ok eth_ro
                    "0x000000000000000000000000000000000000dEaD" (lit "0.0") "eth")
             _ _ _ eq_refl).
  - exact (proj1 (proj2 (proj2 (transfer_amount_unchecked lib_ok net_ok eth_keyed
                    "0x000000000000000000000000000000000000dEaD" (lit "0.0") "eth")))
             "https://eth.llamarpc.com" "0xA11CE" "0xA11CE" false eq_refl
             (ex_intro _ _ eq_refl)).
  - exact (proj1 (proj2 (proj2 (proj2 (transfer_amount_unchecked lib_ok net_ok sol_keyed
                    "11111111111111111111111111111111" (lit "0.0") "sol"))))
             _ _ _ "KeyPub111" eq_refl
             (ex_intro _ _ (ex_intro _ _ (ex_intro _ _ (conj eq_refl (conj eq_refl eq_refl)))))).
  - exact (proj1 (proj2 (proj2 (proj2 (proj2 (transfer_amount_unchecked lib_ok net_ok cb_state
                    "0x000000000000000000000000000000000000dEaD" (lit "0.0") "eth")))))
             _ _ eq_refl).
  - exact (proj1 (proj2 (proj2 (proj2 (proj2 (proj2 (transfer_amount_unchecked lib_ok net_ok
                    sol_keyed "11111111111111111111111111111111" S754_nan "sol"))))))
             eq_refl).
Defined.

Lemma eth_init_read_only : forall lib net env cfg io st tr,
  truthy (ETH_PRIVATE_KEY env) = false ->
  run (eth_init lib net env cfg io) = (Ok st, tr) ->
  exists p a sim, backend st = Ethereum p a None sim.
Proof.
  intros lib net env cfg io st tr Hk Hr. unfold eth_init, run in Hr. rewrite Hk in Hr.
  unfold bind, ret, call in Hr. simpl in Hr.
  destruct (eth_is_connected net); simpl in Hr; [|discriminate].
  destruct (eth_get_balance net _) as [wei|e]; simpl in Hr; [|discriminate].
  injection Hr as <- _. do 3 eexists. reflexivity.
Qed.

Lemma sol_init_read_only : forall lib net env cfg io st tr,
  truthy (SOLANA_PRIVATE_KEY env) = false ->
  run (sol_init lib net env cfg io) = (Ok st, tr) ->
  exists r a pk, backend st = Solana r a pk None.
Proof.
  intros lib net env cfg io st tr Hk Hr. unfold sol_init, run in Hr. rewrite Hk in Hr.
  destruct (negb (truthy (SOLANA_WALLET_ADDRESS env))); [discriminate|].
  unfold bind, ret, call, local, raise in Hr.
  destruct (sol_pubkey_from_string lib _) as [pk|e]; [|discriminate].
  destruct (sol_get_balance net pk) as [[lam|]|e]; simpl in Hr; try discriminate.
  injection Hr as <- _. do 3 eexists. reflexivity.
Qed.

(** C4: an Ethereum or Solana wallet constructed without a signing key
    answers every [transfer] with status "failed" and the error
    "No private key configured (read-only mode)", issuing no network
    request; a Coinbase wallet cannot be constructed without its API key
    and secret. *)
Theorem read_only_transfer_fails (lib : Lib) (net : Net) (env : Env) (cfg : Config)
    (io : list IOInput) (to : string) (amt : float) (asset : string) :
  (forall st tr, truthy (ETH_PRIVATE_KEY env) = false ->
     run (eth_init lib net env cfg io) = (Ok st, tr) ->
     transfer lib net st to amt asset =
       (st, Ok (mkTransferResult None "failed" amt asset to None
                 (Some "No private key configured (read-only mode)")), []))
  /\ (forall st tr, truthy (SOLANA_PRIVATE_KEY env) = false ->
     run (sol_init lib net env cfg io) = (Ok st, tr) ->
     transfer lib net st to amt asset =
       (st, Ok (mkTransferResult None "failed" amt asset to None
                 (Some "No private key configured (read-only mode)")), []))
  /\ (truthy (COINBASE_API_KEY env) = false \/ truthy (COINBASE_API_SECRET env) = false ->
     run (cb_init net env cfg io) = (Raise "ValueError: Missing Coinbase API credentials", [])).
Proof.
  split; [|split].
  - intros st tr Hk Hr. destruct (eth_init_read_only _ _ _ _ _ _ _ Hk Hr) as (p & a & sim & Hb).
    unfold transfer. rewrite Hb. reflexivity.
  - intros st tr Hk Hr. destruct (sol_init_read_only _ _ _ _ _ _ _ Hk Hr) as (r & a & pk & Hb).
    unfold transfer. rewrite Hb. reflexivity.
  - intros [H|H]; unfold cb_init, run; rewrite H; simpl; [reflexivity|].
    rewrite orb_true_r. reflexivity.
Qed.

Lemma read_only_transfer_fails_witness :
  (truthy (ETH_PRIVATE_KEY env_empty) = false /\
   run (eth_init lib_ok net_ok env_empty config_default []) =
     (Ok eth_ro, [EthIsConnected; EthGetBalance "0xd8dA6BF26964aF9D7eEd9e03E53415D37aA96045"]))
  /\ transfer lib_ok net_ok eth_ro "0x000000000000000000000000000000000000dEaD" (lit "0.001") "eth" =
       (eth_ro, Ok (mkTransferResult None "failed" (lit "0.001") "eth"
                      "0x000000000000000000000000000000000000dEaD" None
                      (Some "No private key configured (read-only mode)")), []).
Proof.
  assert (H1 : truthy (ETH_PRIVATE_KEY env_empty) = false) by reflexivity.
  assert (H2 : run (eth_init lib_ok net_ok env_empty config_default []) =
     (Ok eth_ro, [EthIsConnected; EthGetBalance "0xd8dA6BF26964aF9D7eEd9e03E53415D37aA96045"]))
    by reflexivity.
  split; [split; assumption|].
  exact (proj1 (read_only_transfer_fails lib_ok net_ok env_empty config_default []
                  "0x000000000000000000000000000000000000dEaD" (lit "0.001") "eth") _ _ H1 H2).
Defined.

(** C7 (counterexample): without ETH_ADDRESS, the Ethereum constructor
    succeeds with its built-in default address. *)
Lemma eth_missing_address_counterexample :
  ETH_ADDRESS env_empty = None /\
  run (eth_init lib_ok net_ok env_empty config_default []) =
    (Ok eth_ro, [EthIsConnected; EthGetBalance "0xd8dA6BF26964aF9D7eEd9e03E53415D37aA96045"]).
Proof. split; reflexivity. Qed.

(** C7 (amended): the Solana constructor fails without
    SOLANA_WALLET_ADDRESS and the Coinbase one without COINBASE_WALLET_ID,
    before any network request.  The Ethereum constructor does not need
    ETH_ADDRESS: without it, whatever the key, it reads the balance of a
    built-in default address and keeps that address.  A missing signing key
    does not make construction fail and leaves the wallet without a key,
    whatever ETH_ADDRESS holds; for Solana, neither does a key whose
    decoding raises an exception that [except Exception] catches. *)
Theorem construction_identifiers (lib : Lib) (net : Net) (env : Env) (cfg : Config)
    (io : list IOInput) :
  (truthy (SOLANA_WALLET_ADDRESS env) = false ->
     run (sol_init lib net env cfg io) =
       (Raise "ValueError: SOLANA_WALLET_ADDRESS environment variable is not set", []))
  /\ (truthy (COINBASE_WALLET_ID env) = false ->
     exists e, run (cb_init net env cfg io) = (Raise e, []))
  /\ (ETH_ADDRESS env = None ->
      (truthy (ETH_PRIVATE_KEY env) = false \/
       exists acct, eth_account_from_key lib (get_default (ETH_PRIVATE_KEY env) "") = Ok acct) ->
      eth_is_connected net = true ->
      forall wei, eth_get_balance net "0xd8dA6BF26964aF9D7eEd9e03E53415D37aA96045" = Ok wei ->
      exists st, run (eth_init lib net env cfg io) =
        (Ok st, [EthIsConnected; EthGetBalance "0xd8dA6BF26964aF9D7eEd9e03E53415D37aA96045"]) /\
        exists account, backend st =
          Ethereum (get_default (cfg_provider_url cfg) "https://eth.llamarpc.com")
                   "0xd8dA6BF26964aF9D7eEd9e03E53415D37aA96045" account
                   (match cfg_simulate_transfers cfg with Some b => b | None => false end))
  /\ (truthy (ETH_PRIVATE_KEY env) = false ->
      eth_is_connected net = true ->
      forall wei, eth_get_balance net
                    (get_default (ETH_ADDRESS env) "0xd8dA6BF26964aF9D7eEd9e03E53415D37aA96045")
                  = Ok wei ->
      exists st, fst (run (eth_init lib net env cfg io)) = Ok st /\
        backend st = Ethereum (get_default (cfg_provider_url cfg) "https://eth.llamarpc.com")
                       (get_default (ETH_ADDRESS env) "0xd8dA6BF26964aF9D7eEd9e03E53415D37aA96045")
                       None
                       (match cfg_simulate_transfers cfg with Some b => b | None => false end))
  /\ (truthy (SOLANA_WALLET_ADDRESS env) = true ->
      (truthy (SOLANA_PRIVATE_KEY env) = false \/
       exists e, sol_keypair_from_b58 lib (get_default (SOLANA_PRIVATE_KEY env) "") = Raise e
                 /\ is_Exception e = true) ->
      forall pk lam, sol_pubkey_from_string lib (get_default (SOLANA_WALLET_ADDRESS env) "") = Ok pk ->
      sol_get_balance net pk = Ok (Some lam) ->
      exists st, fst (run (sol_init lib net env cfg io)) = Ok st /\
        exists r a, backend st = Solana r a pk None).
Proof.
  split; [|split; [|split; [|split]]].
  - intros H. unfold sol_init, run. rewrite H. reflexivity.
  - intros H. unfold cb_init, run.
    destruct (negb (truthy (COINBASE_API_KEY env)) || negb (truthy (COINBASE_API_SECRET env)));
      [eexists; reflexivity|].
    rewrite H. eexists; reflexivity.
  - intros Ha Hk Hc wei Hw. unfold eth_init, run. rewrite Ha.
    unfold bind, ret, call, local, raise. simpl.
    destruct Hk as [Hk|[acct Hacct]].
    + rewrite Hk. simpl. rewrite Hc. simpl. rewrite Hw. simpl.
      eexists; split; [reflexivity|]. eexists; reflexivity.
    + destruct (truthy (ETH_PRIVATE_KEY env)); [rewrite Hacct|]; simpl; rewrite Hc; simpl;
        rewrite Hw; simpl; (eexists; split; [reflexivity|]); eexists; reflexivity.
  - intros Hk Hc wei Hw. unfold eth_init, run. rewrite Hk. simpl.
    unfold bind, ret, call. simpl. rewrite Hc. simpl. rewrite Hw. simpl.
    eexists; split; reflexivity.
  - intros Ha Hk pk lam Hp Hb. unfold sol_init, run. rewrite Ha. simpl.
    assert (Hkp : forall tr,
      (if truthy (SOLANA_PRIVATE_KEY env)
       then match sol_keypair_from_b58 lib (get_default (SOLANA_PRIVATE_KEY env) "") with
            | Ok kp => ret (Some kp)
            | Raise e => if is_Exception e then ret None else raise e
            end
       else ret None) tr = (Ok None, tr)).
    { intros tr. destruct Hk as [Hk|(e & He & Hx)]; [rewrite Hk; reflexivity|].
      rewrite He, Hx. destruct (truthy (SOLANA_PRIVATE_KEY env)); reflexivity. }
    unfold bind at 1. rewrite Hkp. cbv beta iota.
    unfold bind, ret, call, local. rewrite Hp, Hb. simpl.
    eexists; split; [reflexivity|]. do 2 eexists; reflexivity.
Qed.

Lemma construction_identifiers_witness :
  run (sol_init lib_ok net_ok env_empty config_default []) =
    (Raise "ValueError: SOLANA_WALLET_ADDRESS environment variable is not set", [])
  /\ (exists e, run (cb_init net_ok env_sol config_default []) = (Raise e, []))
  /\ (exists st, run (eth_init lib_ok net_ok env_eth_key config_default []) =
        (Ok st, [EthIsConnected; EthGetBalance "0xd8dA6BF26964aF9D7eEd9e03E53415D37aA96045"]) /\
        exists account, backend st =
          Ethereum "https://eth.llamarpc.com" "0xd8dA6BF26964aF9D7eEd9e03E53415D37aA96045"
                   account false)
  /\ (exists st, fst (run (eth_init lib_ok net_ok env_eth_address config_default [])) = Ok st /\
        backend st = Ethereum "https://eth.llamarpc.com" "0xB0B" None false)
  /\ (exists st, fst (run (sol_init lib_bad_key net_ok env_sol_badkey config_default [])) = Ok st /\
        exists r a, backend st = Solana r a "KeyPub111" None).
Proof.
  split; [|split; [|split; [|split]]].
  - exact (proj1 (construction_identifiers lib_ok net_ok env_empty config_default []) eq_refl).
  - exact (proj1 (proj2 (construction_identifiers lib_ok net_ok env_sol config_default []))
             eq_refl).
  - exact (proj1 (proj2 (proj2 (construction_identifiers lib_ok net_ok env_eth_key
                                  config_default [])))
             eq_refl (or_intror (ex_intro _ "0xA11CE" eq_refl)) eq_refl _ eq_refl).
  - exact (proj1 (proj2 (proj2 (proj2 (construction_identifiers lib_ok net_ok env_eth_address
                                         config_default []))))
             eq_refl eq_refl _ eq_refl).
  - exact (proj2 (proj2 (proj2 (proj2 (construction_identifiers lib_bad_key net_ok env_sol_badkey
                                         config_default []))))
             eq_refl (or_intror (ex_intro _ _ (conj eq_refl eq_refl))) "KeyPub111" 2000000000
             eq_refl eq_refl).
Defined.

(** C9: [transfer] and [sign_message] return the wallet state unchanged
    (balance, previous balance, buffer), and their results and network
    requests do not depend on the balance, previous balance or buffer. *)
Theorem transfer_sign_frame (lib : Lib) (net : Net) (st : WalletState)
    (to : string) (amt : float) (asset msg : string) :
  fst (fst (transfer lib net st to amt asset)) = st
  /\ fst (fst (sign_message lib net st msg)) = st
  /\ forall b bp ms,
       let st2 := mkWalletState (class_name st) (primary_asset st) b bp ms
                    (io_inputs st) (backend st) in
       snd (fst (transfer lib net st2 to amt asset)) = snd (fst (transfer lib net st to amt asset))
       /\ snd (transfer lib net st2 to amt asset) = snd (transfer lib net st to amt asset)
       /\ snd (fst (sign_message lib net st2 msg)) = snd (fst (sign_message lib net st msg))
       /\ snd (sign_message lib net st2 msg) = snd (sign_message lib net st msg).
Proof.
  unfold transfer, sign_message. cbv zeta.
  destruct (backend st) as [p a [acct|] sim|r a pk [kp|]|wid w]; simpl;
    repeat match goal with
           | |- context [match ?x with (_, _) => _ end] => destruct x as [[] ?]
           | |- context [match ?x with Ok _ => _ | Raise _ => _ end] => destruct x
           | |- context [if ?b then _ else _] => destruct b
           end; simpl; repeat split.
Qed.

End BackendFacts.

(* ------------------------------------------------------------------ *)
(** * The other methods of the plugins: polling, accessors, construction
      failures and the results of [transfer] and [sign_message] *)

Module PluginFacts.
Import Wallet Backends Fixtures Plugin PipelineFacts.

Lemma sub_self_not_positive : forall b, ltb zero (sub b b) = false.
Proof.
  intros [s|s| |s m e]; try reflexivity; try (destruct s; reflexivity).
  unfold ltb, zero, sub, SFsub. rewrite Z.min_id, Z.sub_diag. reflexivity.
Qed.

Lemma fetch_balance_fields : forall lib net st a,
  let st1 := snd (fst (fetch_balance lib net st a)) in
  balance st1 = balance st /\ balance_previous st1 = balance_previous st /\
  messages st1 = messages st /\ io_inputs st1 = io_inputs st /\
  class_name st1 = class_name st /\ primary_asset st1 = primary_asset st.
Proof.
  intros lib net st a. unfold fetch_balance.
  destruct (backend st) as [p ad acct sim|r ad pk kp|wid w].
  - destruct (run _) as [[v|e] tr]; [|destruct (is_Exception e)]; repeat split.
  - destruct (run _) as [[v|e] tr]; [|destruct (is_Exception e)]; repeat split.
  - destruct (cb_wallet_fetch net wid); repeat split.
Qed.

Lemma poll_fields : forall lib net st,
  let '(r, st1, _) := _poll lib net st in
  messages st1 = messages st /\ io_inputs st1 = io_inputs st /\
  class_name st1 = class_name st /\ primary_asset st1 = primary_asset st /\
  match r with
  | Ok raw => raw = [balance st1; sub (balance st1) (balance_previous st)] /\
              balance_previous st1 = balance st1
  | Raise _ => balance st1 = balance st /\ balance_previous st1 = balance_previous st
  end.
Proof.
  intros lib net st. unfold _poll.
  pose proof (fetch_balance_fields lib net st (primary_asset st)) as H. simpl in H.
  destruct (fetch_balance lib net st (primary_asset st)) as [[[v|e] st1] tr];
    simpl in H; destruct H as (H1 & H2 & H3 & H4 & H5 & H6).
  - simpl. rewrite H2. repeat split; assumption.
  - repeat split; assumption.
Qed.
Lemma eth_init_ok : forall lib net env cfg io st tr,
  run (eth_init lib net env cfg io) = (Ok st, tr) ->
  let address := get_default (ETH_ADDRESS env) "0xd8dA6BF26964aF9D7eEd9e03E53415D37aA96045" in
  eth_is_connected net = true /\
  exists wei account,
    eth_get_balance net address = Ok wei /\
    match account with
    | None => truthy (ETH_PRIVATE_KEY env) = false
    | Some a => truthy (ETH_PRIVATE_KEY env) = true /\
                eth_account_from_key lib (get_default (ETH_PRIVATE_KEY env) "") = Ok a
    end /\
    tr = [EthIsConnected; EthGetBalance address] /\
    st = mkWalletState "WalletEthereum" (get_default (cfg_primary_asset cfg) "eth")
           (ratio_to_float wei 18) (ratio_to_float wei 18) [] io
           (Ethereum (get_default (cfg_provider_url cfg) "https://eth.llamarpc.com") address
              account (match cfg_simulate_transfers cfg with Some b => b | None => false end)).
Proof.
  intros lib net env cfg io st tr Hr address. unfold eth_init, run in Hr. fold address in Hr.
  unfold bind at 1 in Hr.
  destruct (truthy (ETH_PRIVATE_KEY env)) eqn:Hk.
  - unfold bind at 1, local at 1 in Hr.
    destruct (eth_account_from_key lib _) as [a|e] eqn:Ha; [|discriminate].
    unfold ret at 1, bind at 1, call at 1 in Hr. simpl in Hr.
    destruct (eth_is_connected net); simpl in Hr; [|discriminate].
    unfold bind, call in Hr. destruct (eth_get_balance net address) as [wei|e]; [|discriminate].
    injection Hr as <- <-. split; [reflexivity|]. exists wei, (Some a). auto.
  - unfold ret at 1, bind at 1, call at 1 in Hr. simpl in Hr.
    destruct (eth_is_connected net); simpl in Hr; [|discriminate].
    unfold bind, call in Hr. destruct (eth_get_balance net address) as [wei|e]; [|discriminate].
    injection Hr as <- <-. split; [reflexivity|]. exists wei, None. auto.
Qed.

Lemma sol_init_ok : forall lib net env cfg io st tr,
  run (sol_init lib net env cfg io) = (Ok st, tr) ->
  let address := get_default (SOLANA_WALLET_ADDRESS env) "" in
  truthy (SOLANA_WALLET_ADDRESS env) = true /\
  exists pk lamports keypair,
    sol_pubkey_from_string lib address = Ok pk /\
    sol_get_balance net pk = Ok (Some lamports) /\
    match keypair with
    | None => truthy (SOLANA_PRIVATE_KEY env) = false \/
              exists e, sol_keypair_from_b58 lib (get_default (SOLANA_PRIVATE_KEY env) "") = Raise e
                        /\ is_Exception e = true
    | Some kp => truthy (SOLANA_PRIVATE_KEY env) = true /\
                 sol_keypair_from_b58 lib (get_default (SOLANA_PRIVATE_KEY env) "") = Ok kp
    end /\
    tr = [SolGetBalance pk] /\
    st = mkWalletState "WalletSolana" (get_default (cfg_primary_asset cfg) "sol")
           (ratio_to_float lamports 9) (ratio_to_float lamports 9) [] io
           (Solana (get_default (SOLANA_RPC_URL env) "https://api.mainnet-beta.solana.com")
              address pk keypair).
Proof.
  intros lib net env cfg io st tr Hr address. unfold sol_init, run in Hr.
  destruct (truthy (SOLANA_WALLET_ADDRESS env)) eqn:Ha; simpl in Hr; [|discriminate].
  fold address in Hr. split; [reflexivity|].
  assert (Hk : exists keypair tr1,
    (if truthy (SOLANA_PRIVATE_KEY env)
     then match sol_keypair_from_b58 lib (get_default (SOLANA_PRIVATE_KEY env) "") with
          | Ok kp => ret (Some kp)
          | Raise e => if is_Exception e then ret None else raise e
          end
     else ret None) [] = (Ok keypair, tr1) /\ tr1 = [] /\
    match keypair with
    | None => truthy (SOLANA_PRIVATE_KEY env) = false \/
              exists e, sol_keypair_from_b58 lib (get_default (SOLANA_PRIVATE_KEY env) "") = Raise e
                        /\ is_Exception e = true
    | Some kp => truthy (SOLANA_PRIVATE_KEY env) = true /\
                 sol_keypair_from_b58 lib (get_default (SOLANA_PRIVATE_KEY env) "") = Ok kp
    end).
  { unfold bind at 1 in Hr.
    destruct (truthy (SOLANA_PRIVATE_KEY env)) eqn:Hk.
    - destruct (sol_keypair_from_b58 lib _) as [kp|e] eqn:Hkp.
      + exists (Some kp), []. auto.
      + destruct (is_Exception e) eqn:Hx; [|discriminate].
        exists None, []. split; [reflexivity|split; [reflexivity|]]. right. eauto.
    - exists None, []. auto. }
  destruct Hk as (keypair & tr1 & Ek & -> & Hkp).
  unfold bind at 1 in Hr. rewrite Ek in Hr. cbv beta iota in Hr.
  unfold bind, local, call, ret, raise in Hr.
  destruct (sol_pubkey_from_string lib address) as [pk|e] eqn:Hp; [|discriminate].
  destruct (sol_get_balance net pk) as [[lam|]|e] eqn:Hb; try discriminate.
  injection Hr as <- <-. exists pk, lam, keypair. auto.
Qed.

Lemma cb_init_ok : forall net env cfg io st tr,
  run (cb_init net env cfg io) = (Ok st, tr) ->
  let wid := get_default (COINBASE_WALLET_ID env) "" in
  let primary := get_default (cfg_primary_asset cfg) "eth" in
  truthy (COINBASE_API_KEY env) = true /\ truthy (COINBASE_API_SECRET env) = true /\
  truthy (COINBASE_WALLET_ID env) = true /\
  exists w b,
    cb_wallet_fetch net wid = Ok w /\ cbw_balance w primary = Ok b /\
    tr = [CbWalletFetch wid; CbBalance primary] /\
    st = mkWalletState "WalletCoinbase" primary b b [] io (Coinbase wid w).
Proof.
  intros net env cfg io st tr Hr wid primary. unfold cb_init, run in Hr.
  destruct (truthy (COINBASE_API_KEY env)) eqn:H1; simpl in Hr; [|discriminate].
  destruct (truthy (COINBASE_API_SECRET env)) eqn:H2; simpl in Hr; [|discriminate].
  destruct (truthy (COINBASE_WALLET_ID env)) eqn:H3; simpl in Hr; [|discriminate].
  fold wid primary in Hr. unfold bind, local, call, ret in Hr.
  destruct (cb_wallet_fetch net wid) as [w|e] eqn:Hw; [|discriminate].
  destruct (cbw_balance w primary) as [b|e] eqn:Hb; [|discriminate].
  injection Hr as <- <-. repeat split. exists w, b. auto.
Qed.

Lemma transfer_keeps_state : forall lib net st to amt a,
  fst (fst (transfer lib net st to amt a)) = st.
Proof.
  intros. unfold transfer. cbv zeta.
  destruct (backend st) as [p ad [acct|] sim|r ad pk [kp|]|wid w]; try reflexivity;
    destruct (run _) as [[? | e] ?]; try reflexivity; destruct (is_Exception e); reflexivity.
Qed.

Lemma sign_keeps_state : forall lib net st msg,
  fst (fst (sign_message lib net st msg)) = st.
Proof.
  intros. unfold sign_message.
  destruct (backend st) as [p ad [acct|] sim|r ad pk [kp|]|wid w]; try reflexivity;
    repeat match goal with |- context [match ?x with Ok _ => _ | Raise _ => _ end] => destruct x end;
    reflexivity.
Qed.

Lemma flush_fields : forall st,
  let st1 := snd (formatted_latest_buffer st) in
  balance st1 = balance st /\ balance_previous st1 = balance_previous st /\
  class_name st1 = class_name st /\ primary_asset st1 = primary_asset st /\
  backend st1 = backend st.
Proof.
  intros st. unfold formatted_latest_buffer.
  destruct (messages st); [repeat split|].
  destruct (sum_messages zero _); repeat split.
Qed.

Lemma raw_to_text_fields : forall now raw st,
  let st1 := snd (raw_to_text now raw st) in
  balance st1 = balance st /\ balance_previous st1 = balance_previous st /\
  io_inputs st1 = io_inputs st /\ class_name st1 = class_name st /\
  primary_asset st1 = primary_asset st /\ backend st1 = backend st.
Proof.
  intros now raw st. unfold raw_to_text.
  destruct (_raw_to_text now raw) as [[m|]|e]; repeat split.
Qed.

Lemma live_balances_wf (st : WalletState) (Hl : live st) :
  balance st = balance_previous st /\ buffer_wf (messages st).
Proof.
  induction Hl as [lib net env cfg io st tr Hr|lib net env cfg io st tr Hr|net env cfg io st tr Hr
                  |lib net st a Hl [IH1 IH2]|lib net st Hl [IH1 IH2]|now raw st Hl [IH1 IH2]
                  |st Hl [IH1 IH2]|lib net st to amt a Hl [IH1 IH2]|lib net st msg Hl [IH1 IH2]].
  - destruct (eth_init_ok _ _ _ _ _ _ _ Hr) as (_ & wei & acc & _ & _ & _ & ->).
    split; [reflexivity|constructor].
  - destruct (sol_init_ok _ _ _ _ _ _ _ Hr) as (_ & pk & lam & kp & _ & _ & _ & _ & ->).
    split; [reflexivity|constructor].
  - destruct (cb_init_ok _ _ _ _ _ _ Hr) as (_ & _ & _ & w & b & _ & _ & _ & ->).
    split; [reflexivity|constructor].
  - destruct (fetch_balance_fields lib net st a) as (H1 & H2 & H3 & _).
    rewrite H1, H2, H3. split; assumption.
  - pose proof (poll_fields lib net st) as H.
    destruct (_poll lib net st) as [[[raw|e] st1] tr]; simpl.
    + destruct H as (H3 & _ & _ & _ & _ & H5). rewrite H3. split; [symmetry; exact H5|exact IH2].
    + destruct H as (H3 & _ & _ & _ & H5 & H6). rewrite H3, H5, H6. split; assumption.
  - destruct (raw_to_text_fields now raw st) as (H1 & H2 & _).
    rewrite H1, H2. split; [exact IH1|apply raw_to_text_wf, IH2].
  - destruct (flush_fields st) as (H1 & H2 & _). rewrite H1, H2. split; [exact IH1|].
    destruct (flush_messages st) as [E|E]; rewrite E; [constructor|exact IH2].
  - rewrite transfer_keeps_state. split; assumption.
  - rewrite sign_keeps_state. split; assumption.
Qed.

Lemma stored_fetch_cycle : forall now lib net st,
  balance st = balance_previous st ->
  fst (fst (fetch_balance lib net st (primary_asset st))) = Ok (balance st) ->
  let '(r, st1, _) := poll_cycle now lib net st in
  r = Ok tt /\ messages st1 = messages st /\ balance st1 = balance st /\
  balance_previous st1 = balance_previous st.
Proof.
  intros now lib net st Hs Hf. unfold poll_cycle, _poll.
  pose proof (fetch_balance_fields lib net st (primary_asset st)) as H. simpl in H.
  destruct (fetch_balance lib net st (primary_asset st)) as [[r st1] tr].
  simpl in Hf, H. subst r. destruct H as (H1 & H2 & H3 & _).
  unfold poll_step, raw_to_text, _raw_to_text. simpl.
  rewrite H2, <- Hs, sub_self_not_positive. simpl. auto.
Qed.

(** X1: in every state of a wallet object (after a constructor and any
    sequence of [fetch_balance], [_poll], [raw_to_text],
    [formatted_latest_buffer], [transfer] and [sign_message] calls)
    [balance] equals [balance_previous], every buffered message is a
    [.5f] rendering, and [formatted_latest_buffer] never raises. *)
Theorem live_state_invariant (st : WalletState) (Hl : live st) :
  balance st = balance_previous st /\ buffer_wf (messages st) /\
  forall e, fst (formatted_latest_buffer st) <> Raise e.
Proof.
  destruct (live_balances_wf st Hl) as [H1 H2]. split; [exact H1|split; [exact H2|]].
  intros e. unfold formatted_latest_buffer. destruct (messages st) as [|m ms] eqn:E; [discriminate|].
  destruct (sum_messages_wf (m :: ms) zero H2) as [s Hs].
  rewrite Hs. discriminate.
Qed.


Lemma eth_fetch_caught : forall lib net st p ad acc sim a,
  backend st = Ethereum p ad acc sim ->
  (forall e, eth_block_number net = Raise e -> is_Exception e = true) ->
  (forall e, eth_get_balance net ad = Raise e -> is_Exception e = true) ->
  (exists e, eth_block_number net = Raise e) \/ (exists e, eth_get_balance net ad = Raise e) ->
  fst (fst (fetch_balance lib net st a)) = Ok (balance st).
Proof.
  intros lib net st p ad acc sim a Hb H1 H2 Hd. unfold fetch_balance. rewrite Hb.
  unfold run, bind, call, ret.
  destruct (eth_block_number net) as [n|e] eqn:E1.
  - destruct Hd as [[e He]|[e He]]; [discriminate|].
    rewrite He. simpl. rewrite (H2 e He). reflexivity.
  - simpl. rewrite (H1 e eq_refl). reflexivity.
Qed.

Lemma sol_fetch_caught : forall lib net st r ad pk kp a,
  backend st = Solana r ad pk kp ->
  (exists e, sol_get_balance net pk = Raise e /\ is_Exception e = true) \/
  sol_get_balance net pk = Ok None ->
  fst (fst (fetch_balance lib net st a)) = Ok (balance st).
Proof.
  intros lib net st r ad pk kp a Hb Hd. unfold fetch_balance. rewrite Hb.
  unfold run, bind, call, ret.
  destruct Hd as [(e & He & Hx)|He]; rewrite He; simpl; [rewrite Hx|]; reflexivity.
Qed.


(** X3: in any state of an Ethereum or Solana wallet, a poll cycle whose
    balance read fails with an exception that [except Exception] catches
    records no receipt message and leaves both balances unchanged: the
    change [self.balance - self.balance_previous] is never positive,
    whatever the float (zero, infinity, NaN). *)
Theorem network_failure_no_receipt (now : float) (lib : Lib) (net : Net) (st : WalletState)
    (Hl : live st)
    (Hdown : match backend st with
             | Ethereum _ ad _ _ =>
                 (forall e, eth_block_number net = Raise e -> is_Exception e = true) /\
                 (forall e, eth_get_balance net ad = Raise e -> is_Exception e = true) /\
                 ((exists e, eth_block_number net = Raise e) \/
                  (exists e, eth_get_balance net ad = Raise e))
             | Solana _ _ pk _ =>
                 (exists e, sol_get_balance net pk = Raise e /\ is_Exception e = true) \/
                 sol_get_balance net pk = Ok None
             | Coinbase _ _ => False
             end) :
  let '(r, st1, _) := poll_cycle now lib net st in
  r = Ok tt /\ messages st1 = messages st /\ balance st1 = balance st /\
  balance_previous st1 = balance_previous st.
Proof.
  destruct (live_balances_wf st Hl) as [Hs _].
  apply stored_fetch_cycle; [exact Hs|].
  destruct (backend st) as [p ad acc sim|r ad pk kp|wid w] eqn:Hb; [| |contradiction].
  - destruct Hdown as (H1 & H2 & Hd). exact (eth_fetch_caught lib net st p ad acc sim _ Hb H1 H2 Hd).
  - exact (sol_fetch_caught lib net st r ad pk kp _ Hb Hdown).
Qed.

(** X4: a wallet whose on-chain balance is unchanged since construction
    records no receipt on its first poll (Ethereum with simulation off and a
    block-number request that raises, if at all, an exception that
    [except Exception] catches; Solana; Coinbase): constructor and
    [fetch_balance] convert the same answer to the same float. *)
Theorem first_poll_after_construction (now : float) (lib : Lib) (net : Net) (env : Env)
    (cfg : Config) (io : list IOInput) :
  (forall st tr, run (eth_init lib net env cfg io) = (Ok st, tr) ->
     cfg_simulate_transfers cfg <> Some true ->
     (forall e, eth_block_number net = Raise e -> is_Exception e = true) ->
     let '(r, st1, _) := poll_cycle now lib net st in
     r = Ok tt /\ messages st1 = [] /\ balance st1 = balance st)
  /\ (forall st tr, run (sol_init lib net env cfg io) = (Ok st, tr) ->
     let '(r, st1, _) := poll_cycle now lib net st in
     r = Ok tt /\ messages st1 = [] /\ balance st1 = balance st)
  /\ (forall st tr, run (cb_init net env cfg io) = (Ok st, tr) ->
     let '(r, st1, _) := poll_cycle now lib net st in
     r = Ok tt /\ messages st1 = [] /\ balance st1 = balance st).
Proof.
  split; [|split].
  - intros st tr Hr Hsim Hx.
    destruct (eth_init_ok _ _ _ _ _ _ _ Hr) as (_ & wei & acc & Hw & _ & _ & Est).
    assert (Hf : fst (fst (fetch_balance lib net st (primary_asset st))) = Ok (balance st)).
    { rewrite Est. unfold fetch_balance. simpl.
      replace (match cfg_simulate_transfers cfg with Some b => b | None => false end) with false
        by (destruct (cfg_simulate_transfers cfg) as [[]|]; congruence).
      unfold run, bind, call, ret. destruct (eth_block_number net) as [n|e] eqn:E; simpl.
      - rewrite Hw. reflexivity.
      - rewrite (Hx e eq_refl). reflexivity. }
    assert (Hs : balance st = balance_previous st) by (rewrite Est; reflexivity).
    pose proof (stored_fetch_cycle now lib net st Hs Hf) as H.
    destruct (poll_cycle now lib net st) as [[r st1] tr1].
    destruct H as (H1 & H2 & H3 & _). split; [exact H1|split; [rewrite H2, Est; reflexivity|exact H3]].
  - intros st tr Hr.
    destruct (sol_init_ok _ _ _ _ _ _ _ Hr) as (_ & pk & lam & kp & _ & Hb & _ & _ & Est).
    assert (Hf : fst (fst (fetch_balance lib net st (primary_asset st))) = Ok (balance st)).
    { rewrite Est. unfold fetch_balance. simpl. unfold run, bind, call, ret. rewrite Hb. reflexivity. }
    assert (Hs : balance st = balance_previous st) by (rewrite Est; reflexivity).
    pose proof (stored_fetch_cycle now lib net st Hs Hf) as H.
    destruct (poll_cycle now lib net st) as [[r st1] tr1].
    destruct H as (H1 & H2 & H3 & _). split; [exact H1|split; [rewrite H2, Est; reflexivity|exact H3]].
  - intros st tr Hr.
    destruct (cb_init_ok _ _ _ _ _ _ Hr) as (_ & _ & _ & w & b & Hw & Hb & _ & Est).
    assert (Hf : fst (fst (fetch_balance lib net st (primary_asset st))) = Ok (balance st)).
    { rewrite Est. unfold fetch_balance. simpl. rewrite Hw. exact Hb. }
    assert (Hs : balance st = balance_previous st) by (rewrite Est; reflexivity).
    pose proof (stored_fetch_cycle now lib net st Hs Hf) as H.
    destruct (poll_cycle now lib net st) as [[r st1] tr1].
    destruct H as (H1 & H2 & H3 & _). split; [exact H1|split; [rewrite H2, Est; reflexivity|exact H3]].
Qed.

(** X5: a successful Coinbase [fetch_balance] replaces [self.wallet] by the
    freshly fetched wallet, then queries the service for that wallet's
    balance of the given asset (the assignment stays even when the query
    raises), so [get_wallet_address] then reports the new wallet's default
    address; a failed fetch changes nothing and issues no balance query. *)
Theorem coinbase_fetch_refreshes (lib : Lib) (net : Net) (st : WalletState) (a : string)
    (wid : string) (w : CbWallet) (Hb : backend st = Coinbase wid w) :
  (forall w', cb_wallet_fetch net wid = Ok w' ->
     let '(r, st1, tr) := fetch_balance lib net st a in
     r = cbw_balance w' a /\ backend st1 = Coinbase wid w' /\
     get_wallet_address st1 = cbw_default_address w' /\
     balance st1 = balance st /\ tr = [CbWalletFetch wid; CbBalance a])
  /\ (forall e, cb_wallet_fetch net wid = Raise e ->
     fetch_balance lib net st a = (Raise e, st, [CbWalletFetch wid])).
Proof.
  split.
  - intros w' Hw. unfold fetch_balance. rewrite Hb, Hw. repeat split.
  - intros e He. unfold fetch_balance. rewrite Hb, He. reflexivity.
Qed.

(** X6: [_poll] raises only with the exception of [Wallet.fetch] or of the
    balance query of a Coinbase wallet, or, for Ethereum and Solana, with an
    exception of a balance read that [except Exception] does not catch; it
    then leaves the balances and the buffer unchanged, and the poll cycle
    ends with that exception. *)
Theorem poll_raise_only_coinbase (now : float) (lib : Lib) (net : Net) (st : WalletState)
    (e : string) (Hr : fst (fst (_poll lib net st)) = Raise e) :
  ((exists wid w, backend st = Coinbase wid w /\
     (cb_wallet_fetch net wid = Raise e \/
      exists w', cb_wallet_fetch net wid = Ok w' /\ cbw_balance w' (primary_asset st) = Raise e))
   \/ (is_Exception e = false /\
       match backend st with
       | Ethereum _ ad _ _ => eth_block_number net = Raise e \/ eth_get_balance net ad = Raise e
       | Solana _ _ pk _ => sol_get_balance net pk = Raise e
       | Coinbase _ _ => False
       end))
  /\ (let st1 := snd (fst (_poll lib net st)) in
      balance st1 = balance st /\ balance_previous st1 = balance_previous st /\
      messages st1 = messages st)
  /\ poll_cycle now lib net st = (Raise e, snd (fst (_poll lib net st)), snd (_poll lib net st)).
Proof.
  pose proof (poll_fields lib net st) as Hp.
  unfold poll_cycle. destruct (_poll lib net st) as [[r st1] tr] eqn:E. simpl in Hr. subst r.
  destruct Hp as (H1 & _ & _ & _ & H2 & H3). split; [|split; [simpl; auto|reflexivity]].
  unfold _poll, fetch_balance in E.
  destruct (backend st) as [p ad acc sim|r ad pk kp|wid w].
  - right. unfold run, bind, call, ret in E.
    destruct (eth_block_number net) as [n|e1] eqn:E1; simpl in E.
    + destruct (eth_get_balance net ad) as [wei|e2] eqn:E2; simpl in E.
      * destruct (sim && _); simpl in E; discriminate.
      * destruct (is_Exception e2) eqn:Hx; simpl in E; [discriminate|].
        injection E as <- _ _. auto.
    + destruct (is_Exception e1) eqn:Hx; simpl in E; [discriminate|].
      injection E as <- _ _. auto.
  - right. unfold run, bind, call, ret, raise in E.
    destruct (sol_get_balance net pk) as [[lam|]|e1] eqn:E1; simpl in E; [discriminate|discriminate|].
    destruct (is_Exception e1) eqn:Hx; simpl in E; [discriminate|].
    injection E as <- _ _. auto.
  - left. exists wid, w. split; [reflexivity|].
    destruct (cb_wallet_fetch net wid) as [w'|e'].
    + right. exists w'. split; [reflexivity|].
      destruct (cbw_balance w' (primary_asset st)) as [v|e'']; simpl in E; congruence.
    + left. congruence.
Qed.

(** X7: [raw_to_text] raises IndexError (state unchanged) on an input of
    fewer than two elements, reads only the second element, and never
    changes the balances, the IOProvider inputs or the backend; it appends
    at most one message, stamped with the current time. *)
Theorem raw_to_text_reads_change_only (now : float) (st : WalletState) :
  (forall raw, (List.length raw < 2)%nat ->
     raw_to_text now raw st = (Raise "IndexError: list index out of range", st))
  /\ (forall b b' d rest rest',
     raw_to_text now (b :: d :: rest) st = raw_to_text now (b' :: d :: rest') st)
  /\ (forall raw,
     let st1 := snd (raw_to_text now raw st) in
     balance st1 = balance st /\ balance_previous st1 = balance_previous st /\
     io_inputs st1 = io_inputs st /\ backend st1 = backend st /\
     (messages st1 = messages st \/
      exists m, messages st1 = messages st ++ [m] /\ timestamp m = now)).
Proof.
  split; [|split].
  - intros [|b [|d raw]] Hl; simpl in Hl; try reflexivity; lia.
  - intros. reflexivity.
  - intros raw. destruct (raw_to_text_fields now raw st) as (H1 & H2 & H3 & _ & _ & H4).
    repeat split; try assumption.
    unfold raw_to_text. destruct (_raw_to_text now raw) as [[m|]|e] eqn:E; simpl; auto.
    right. exists m. split; [reflexivity|].
    unfold _raw_to_text in E. destruct (nth_error raw 1); [|discriminate].
    destruct (ltb zero f); [|discriminate]. injection E as <-. reflexivity.
Qed.

(** X8: in every state of a wallet object, a flush of an empty buffer
    returns [None] and changes nothing; a flush of a non-empty buffer sends
    exactly one input to the IOProvider, whose text is the line framed by
    [// START] and [// END] in the returned string and whose timestamp is
    that of the last buffered message. *)
Theorem flush_logs_once (st : WalletState) (Hl : live st) :
  (messages st = [] -> formatted_latest_buffer st = (Ok None, st))
  /\ (forall m ms, messages st = m :: ms ->
     exists s,
       let text := summary_text (primary_asset st) s in
       formatted_latest_buffer st =
         (Ok (Some (wrap_result (class_name st) text)),
          set_buffer st []
            (io_inputs st ++ [mkIOInput (class_name st) text (timestamp (last (m :: ms) m))]))).
Proof.
  destruct (live_balances_wf st Hl) as [_ Hwf]. split.
  - intros E. unfold formatted_latest_buffer. rewrite E. reflexivity.
  - intros m ms E. rewrite E in Hwf. destruct (sum_messages_wf (m :: ms) zero Hwf) as [s Hs].
    exists s. unfold formatted_latest_buffer. rewrite E, Hs. reflexivity.
Qed.

(** X9: an Ethereum or Solana wallet constructed without a signing key
    answers every [sign_message] with status "failed", the read-only error
    and its configured address, issuing no network request. *)
Theorem read_only_sign_fails (lib : Lib) (net : Net) (env : Env) (cfg : Config)
    (io : list IOInput) (msg : string) :
  (forall st tr, truthy (ETH_PRIVATE_KEY env) = false ->
     run (eth_init lib net env cfg io) = (Ok st, tr) ->
     get_wallet_address st = get_default (ETH_ADDRESS env) "0xd8dA6BF26964aF9D7eEd9e03E53415D37aA96045"
     /\ sign_message lib net st msg =
       (st, Ok (mkSignResult None msg (get_wallet_address st) "failed"
                 (Some "No private key configured (read-only mode)")), []))
  /\ (forall st tr, truthy (SOLANA_PRIVATE_KEY env) = false ->
     run (sol_init lib net env cfg io) = (Ok st, tr) ->
     get_wallet_address st = get_default (SOLANA_WALLET_ADDRESS env) ""
     /\ sign_message lib net st msg =
       (st, Ok (mkSignResult None msg (get_wallet_address st) "failed"
                 (Some "No private key configured (read-only mode)")), [])).
Proof.
  split.
  - intros st tr Hk Hr.
    destruct (eth_init_ok _ _ _ _ _ _ _ Hr) as (_ & wei & [a|] & _ & Ha & _ & Est).
    + destruct Ha as [Ha _]. congruence.
    + subst st. split; reflexivity.
  - intros st tr Hk Hr.
    destruct (sol_init_ok _ _ _ _ _ _ _ Hr) as (_ & pk & lam & [kp|] & _ & _ & Hkp & _ & Est).
    + destruct Hkp as [Hkp _]. congruence.
    + subst st. split; reflexivity.
Qed.

(** X10: an Ethereum wallet with a key monitors the account of ETH_ADDRESS
    ([get_wallet_address], balance reads) but signs and sends as the key's
    account (signing address, nonce lookup, [from_address]); the constructor
    never checks that the two agree. *)
Theorem eth_key_identity (lib : Lib) (net : Net) (env : Env) (cfg : Config)
    (io : list IOInput) (st : WalletState) (tr : list NetCall) (acct : string)
    (Hr : run (eth_init lib net env cfg io) = (Ok st, tr))
    (Hk : truthy (ETH_PRIVATE_KEY env) = true)
    (Ha : eth_account_from_key lib (get_default (ETH_PRIVATE_KEY env) "") = Ok acct) :
  get_wallet_address st = get_default (ETH_ADDRESS env) "0xd8dA6BF26964aF9D7eEd9e03E53415D37aA96045"
  /\ (forall a x, In (EthGetBalance x) (snd (fetch_balance lib net st a)) ->
        x = get_wallet_address st)
  /\ (forall msg r, snd (fst (sign_message lib net st msg)) = Ok r ->
        (sign_status r = "success" -> address r = acct) /\
        (sign_status r = "failed" -> address r = get_wallet_address st))
  /\ (forall to amt a,
        let '(_, r, calls) := transfer lib net st to amt a in
        (forall res, r = Ok res -> status res = "pending" -> from_address res = Some acct) /\
        (forall x, In (EthGetTransactionCount x) calls -> x = acct)).
Proof.
  destruct (eth_init_ok _ _ _ _ _ _ _ Hr) as (_ & wei & [a0|] & _ & Hacc & _ & Est);
    [|congruence].
  destruct Hacc as [_ Ha0]. rewrite Ha in Ha0. injection Ha0 as <-. subst st.
  split; [reflexivity|split; [|split]].
  - intros a x Hin. unfold fetch_balance in Hin. simpl in Hin.
    unfold run, bind, call, ret in Hin.
    repeat match type of Hin with
           | context [match ?x with Ok _ => _ | Raise _ => _ end] => destruct x
           | context [if ?b then _ else _] => destruct b
           end; unfold get_wallet_address; simpl in Hin |- *; intuition congruence.
  - intros msg r. unfold sign_message. simpl.
    destruct (eth_sign_message lib acct msg) as [sig|e]; simpl.
    + intros H. injection H as <-. split; intros H; [reflexivity|discriminate].
    + destruct (is_Exception e); intros H; [|discriminate]. injection H as <-.
      split; intros H; [discriminate|reflexivity].
  - intros to amt a. unfold transfer. simpl. unfold run, bind, local, call, ret.
    repeat match goal with
           | |- context [match ?x with Ok _ => _ | Raise _ => _ end] => destruct x
           | |- context [if is_Exception ?e then _ else _] => destruct (is_Exception e)
           end; simpl; split;
      try (intros res Hres; injection Hres as <-; simpl; intros H; try reflexivity; discriminate);
      try (intros res Hres; discriminate);
      intros x Hin; simpl in Hin; intuition congruence.
Qed.

(** X11: only Coinbase signs over the network, with exactly one request.
    Every [sign_message] result echoes the message; it is either "success"
    with a signature and no error or "failed" with an error and no
    signature; a failure reports [get_wallet_address].  The signer's
    exceptions that [except Exception] does not catch propagate instead. *)
Theorem sign_result_shape (lib : Lib) (net : Net) (st : WalletState) (msg : string) :
  let '(_, r, calls) := sign_message lib net st msg in
  calls = match backend st with Coinbase _ _ => [CbSignPayload] | _ => [] end
  /\ match r with
     | Ok r =>
         signed_message r = msg
         /\ ((sign_status r = "success" /\ (exists s, signature r = Some s) /\ sign_error r = None)
             \/ (sign_status r = "failed" /\ signature r = None /\ exists e, sign_error r = Some e))
         /\ (sign_status r = "failed" -> address r = get_wallet_address st)
     | Raise e => is_Exception e = false
     end.
Proof.
  unfold sign_message, get_wallet_address. cbv zeta.
  destruct (backend st) as [p ad [acct|] sim|r ad pk [kp|]|wid w];
    repeat match goal with
           | |- context [if is_Exception ?e then _ else _] => destruct (is_Exception e) eqn:?
           | |- context [match ?x with Ok _ => _ | Raise _ => _ end] => is_var x; destruct x
           | |- context [match eth_sign_message ?l ?a ?m with Ok _ => _ | Raise _ => _ end] =>
               destruct (eth_sign_message l a m)
           | |- context [match sol_sign_message ?l ?a ?m with Ok _ => _ | Raise _ => _ end] =>
               destruct (sol_sign_message l a m)
           | |- context [match cb_sign_payload ?n ?w ?m with Ok _ => _ | Raise _ => _ end] =>
               destruct (cb_sign_payload n w m)
           end; simpl;
    (split; [reflexivity|]); try assumption;
    (split; [reflexivity|split; [|intros H; try reflexivity; discriminate]]); eauto 10.
Qed.

(** X12: every [transfer] result echoes amount, asset and recipient; it is
    either "failed" with an error and neither hash nor sender, or
    "pending" (Ethereum, Solana) or "completed" (Coinbase) with a hash, no
    error, and the sender: the key's account, or the Coinbase wallet's
    address.  Exceptions that [except Exception] does not catch propagate
    instead. *)
Theorem transfer_result_shape (lib : Lib) (net : Net) (st : WalletState)
    (to : string) (amt : float) (a : string) :
  let '(_, r, _) := transfer lib net st to amt a in
  match r with
  | Ok r =>
      amount r = amt /\ asset r = a /\ to_address r = to
      /\ ((status r = "failed" /\ transaction_hash r = None /\ from_address r = None /\
           exists e, error r = Some e)
          \/ (status r = match backend st with Coinbase _ _ => "completed" | _ => "pending" end /\
              (exists h, transaction_hash r = Some h) /\ error r = None /\
              from_address r = Some (match backend st with
                                     | Ethereum _ _ (Some acct) _ => acct
                                     | Solana _ _ _ (Some kp) => kp
                                     | _ => get_wallet_address st
                                     end)))
  | Raise e => is_Exception e = false
  end.
Proof.
  unfold transfer, get_wallet_address. cbv zeta.
  destruct (backend st) as [p ad [acct|] sim|r ad pk [kp|]|wid w];
    unfold run, bind, local, call, ret; simpl;
    repeat (match goal with
            | |- context [if is_Exception ?e then _ else _] => destruct (is_Exception e) eqn:?
            | |- context [match ?x with Ok _ => _ | Raise _ => _ end] => destruct x
            end; simpl);
    eauto 10.
Qed.

(** X13: a transfer is rejected before any network request when the
    recipient fails the Ethereum checksum conversion or the Solana public
    key parsing (the result carries [str(e)], unless [except Exception]
    lets the exception through), or when a Solana amount is NaN or infinite
    ([int()] of the lamport amount raises) and the recipient parse does not
    raise an exception that escapes the handler. *)
Theorem transfer_local_rejection (lib : Lib) (net : Net) (st : WalletState)
    (to : string) (amt : float) (a : string) :
  (forall p ad acct sim e, backend st = Ethereum p ad (Some acct) sim ->
     eth_to_checksum_address lib to = Raise e ->
     transfer lib net st to amt a =
       (st, if is_Exception e then Ok (transfer_failed amt a to (str_exc e)) else Raise e, []))
  /\ (forall r ad pk kp e, backend st = Solana r ad pk (Some kp) ->
     sol_pubkey_from_string lib to = Raise e ->
     transfer lib net st to amt a =
       (st, if is_Exception e then Ok (transfer_failed amt a to (str_exc e)) else Raise e, []))
  /\ (forall r ad pk kp, backend st = Solana r ad pk (Some kp) ->
     (forall e, sol_pubkey_from_string lib to = Raise e -> is_Exception e = true) ->
     (amt = S754_nan \/ exists s, amt = S754_infinity s) ->
     exists e, transfer lib net st to amt a = (st, Ok (transfer_failed amt a to e), [])).
Proof.
  split; [|split].
  - intros p ad acct sim e Hb He. unfold transfer. rewrite Hb.
    unfold run, bind at 1, local at 1. rewrite He. cbv beta iota zeta.
    destruct (is_Exception e); reflexivity.
  - intros r ad pk kp e Hb He. unfold transfer. rewrite Hb.
    unfold run, bind at 1, local at 1. rewrite He. cbv beta iota zeta.
    destruct (is_Exception e); reflexivity.
  - intros r ad pk kp Hb Hx Hamt. unfold transfer. rewrite Hb.
    unfold run, bind at 1, local at 1.
    destruct (sol_pubkey_from_string lib to) as [rc|e] eqn:Hp; cbv beta iota zeta.
    2:{ rewrite (Hx e eq_refl). eexists; reflexivity. }
    unfold bind at 1, local at 1.
    assert (Hl : exists m ex, lit "1000000000" = S754_finite false m ex)
      by (eexists; eexists; vm_compute; reflexivity).
    destruct Hl as (m & ex & Hl). rewrite Hl.
    destruct Hamt as [->|[s ->]]; simpl; eexists; reflexivity.
Qed.

(** X14: a Coinbase transfer that the service accepted is reported
    "failed", without its transaction hash and with [str(e)], when waiting
    for it raises an exception [e] that [except Exception] catches; any
    other exception propagates. *)
Theorem coinbase_wait_failure (lib : Lib) (net : Net) (st : WalletState)
    (to : string) (amt : float) (a : string) (wid : string) (w : CbWallet) (h e : string)
    (Hb : backend st = Coinbase wid w) (Ht : cb_transfer net w amt a to = Ok h)
    (Hw : cb_wait net h = Raise e) :
  transfer lib net st to amt a =
    (st, if is_Exception e then Ok (transfer_failed amt a to (str_exc e)) else Raise e,
     [CbTransfer; CbWait]).
Proof.
  unfold transfer. rewrite Hb. unfold run, bind, call, ret. rewrite Ht, Hw. cbv beta iota zeta.
  destruct (is_Exception e); reflexivity.
Qed.

(** X15: the Ethereum constructor raises before any network request on an
    invalid private key; otherwise it raises after the connectivity check
    when the node is unreachable, and after the balance request when that
    request fails. *)
Theorem eth_init_failures (lib : Lib) (net : Net) (env : Env) (cfg : Config)
    (io : list IOInput) :
  let key := get_default (ETH_PRIVATE_KEY env) "" in
  let address := get_default (ETH_ADDRESS env) "0xd8dA6BF26964aF9D7eEd9e03E53415D37aA96045" in
  (forall e, truthy (ETH_PRIVATE_KEY env) = true -> eth_account_from_key lib key = Raise e ->
     run (eth_init lib net env cfg io) = (Raise e, []))
  /\ (truthy (ETH_PRIVATE_KEY env) = false \/ (exists acct, eth_account_from_key lib key = Ok acct) ->
     (eth_is_connected net = false ->
        run (eth_init lib net env cfg io) =
          (Raise ("Exception: Failed to connect to Ethereum at " ++
                  get_default (cfg_provider_url cfg) "https://eth.llamarpc.com"),
           [EthIsConnected]))
     /\ (forall e, eth_is_connected net = true -> eth_get_balance net address = Raise e ->
        run (eth_init lib net env cfg io) = (Raise e, [EthIsConnected; EthGetBalance address]))).
Proof.
  intros key address. split.
  - intros e Hk He. unfold eth_init, run. rewrite Hk. unfold bind at 2, local.
    fold key. rewrite He. reflexivity.
  - intros Hk. split.
    + intros Hc. unfold eth_init, run.
      destruct Hk as [Hk|[acct Ha]]; rewrite Hk || (destruct (truthy (ETH_PRIVATE_KEY env)));
        unfold bind, local, ret, call; try (fold key; rewrite Ha); simpl; rewrite Hc; reflexivity.
    + intros e Hc He. unfold eth_init, run.
      destruct Hk as [Hk|[acct Ha]]; rewrite Hk || (destruct (truthy (ETH_PRIVATE_KEY env)));
        unfold bind, local, ret, call; try (fold key; rewrite Ha); simpl; rewrite Hc; simpl;
        fold address; rewrite He; reflexivity.
Qed.

(** X16: the Solana constructor raises without a network request when
    decoding its private key raises an exception that [except Exception]
    does not catch.  Otherwise it raises without a network request on an
    unparsable wallet address, and after its one balance request when that
    request fails or returns no value.  The Coinbase constructor raises
    after its [Wallet.fetch] request when the fetch fails, and after the
    balance query that follows when that query fails. *)
Theorem sol_cb_init_failures (lib : Lib) (net : Net) (env : Env) (cfg : Config)
    (io : list IOInput) :
  let address := get_default (SOLANA_WALLET_ADDRESS env) "" in
  let key := get_default (SOLANA_PRIVATE_KEY env) "" in
  let wid := get_default (COINBASE_WALLET_ID env) "" in
  (truthy (SOLANA_WALLET_ADDRESS env) = true ->
     (forall e, truthy (SOLANA_PRIVATE_KEY env) = true -> sol_keypair_from_b58 lib key = Raise e ->
        is_Exception e = false -> run (sol_init lib net env cfg io) = (Raise e, []))
     /\ (truthy (SOLANA_PRIVATE_KEY env) = false \/
         (forall e, sol_keypair_from_b58 lib key = Raise e -> is_Exception e = true) ->
        (forall e, sol_pubkey_from_string lib address = Raise e ->
           run (sol_init lib net env cfg io) = (Raise e, []))
        /\ (forall pk, sol_pubkey_from_string lib address = Ok pk ->
           (forall e, sol_get_balance net pk = Raise e ->
              run (sol_init lib net env cfg io) = (Raise e, [SolGetBalance pk]))
           /\ (sol_get_balance net pk = Ok None ->
              run (sol_init lib net env cfg io) =
                (Raise ("ConnectionError: Failed to get balance from Solana RPC: " ++
                        get_default (SOLANA_RPC_URL env) "https://api.mainnet-beta.solana.com"),
                 [SolGetBalance pk])))))
  /\ (truthy (COINBASE_API_KEY env) = true -> truthy (COINBASE_API_SECRET env) = true ->
     truthy (COINBASE_WALLET_ID env) = true ->
     (forall e, cb_wallet_fetch net wid = Raise e ->
        run (cb_init net env cfg io) = (Raise e, [CbWalletFetch wid]))
     /\ (forall w e, cb_wallet_fetch net wid = Ok w ->
        cbw_balance w (get_default (cfg_primary_asset cfg) "eth") = Raise e ->
        run (cb_init net env cfg io) =
          (Raise e, [CbWalletFetch wid; CbBalance (get_default (cfg_primary_asset cfg) "eth")]))).
Proof.
  intros address key wid. split.
  - intros Ha. unfold sol_init, run. rewrite Ha. simpl. fold address key. split.
    + intros e Hk He Hx. rewrite Hk. unfold bind at 1. rewrite He, Hx. reflexivity.
    + intros Hk. unfold bind, local, call, raise, ret.
      destruct (truthy (SOLANA_PRIVATE_KEY env)) eqn:Ek;
        [destruct (sol_keypair_from_b58 lib key) as [kp|e0] eqn:Ekp;
           [|destruct Hk as [Hk|Hk]; [congruence|rewrite (Hk e0 eq_refl)]]|];
        cbv beta iota zeta;
        (split; [intros e He; rewrite He; reflexivity|]);
        intros pk Hp; rewrite Hp; cbv beta iota zeta;
        (split; [intros e He|intros He]); rewrite He; reflexivity.
  - intros H1 H2 H3. unfold cb_init, run. rewrite H1, H2, H3. simpl. fold wid.
    unfold bind, local, call, ret. split.
    + intros e He. rewrite He. reflexivity.
    + intros w e Hw He. rewrite Hw, He. reflexivity.
Qed.

(** X17: after construction, [get_wallet_address] is ETH_ADDRESS (or its
    default), the raw SOLANA_WALLET_ADDRESS string, or the fetched Coinbase
    wallet's default address; [get_supported_assets] is fixed per backend,
    and the primary asset is taken from the configuration unchecked. *)
Theorem constructed_address_assets (lib : Lib) (net : Net) (env : Env) (cfg : Config)
    (io : list IOInput) :
  (forall st tr, run (eth_init lib net env cfg io) = (Ok st, tr) ->
     get_wallet_address st =
       get_default (ETH_ADDRESS env) "0xd8dA6BF26964aF9D7eEd9e03E53415D37aA96045"
     /\ get_supported_assets st = ["eth"]
     /\ primary_asset st = get_default (cfg_primary_asset cfg) "eth"
     /\ io_inputs st = io)
  /\ (forall st tr, run (sol_init lib net env cfg io) = (Ok st, tr) ->
     get_wallet_address st = get_default (SOLANA_WALLET_ADDRESS env) ""
     /\ get_supported_assets st = ["sol"]
     /\ primary_asset st = get_default (cfg_primary_asset cfg) "sol"
     /\ io_inputs st = io)
  /\ (forall st tr, run (cb_init net env cfg io) = (Ok st, tr) ->
     (exists w, cb_wallet_fetch net (get_default (COINBASE_WALLET_ID env) "") = Ok w /\
                get_wallet_address st = cbw_default_address w)
     /\ get_supported_assets st = ["eth"; "usdc"; "weth"; "gwei"]
     /\ primary_asset st = get_default (cfg_primary_asset cfg) "eth"
     /\ io_inputs st = io).
Proof.
  split; [|split].
  - intros st tr Hr. destruct (eth_init_ok _ _ _ _ _ _ _ Hr) as (_ & wei & acc & _ & _ & _ & ->).
    repeat split.
  - intros st tr Hr.
    destruct (sol_init_ok _ _ _ _ _ _ _ Hr) as (_ & pk & lam & kp & _ & _ & _ & _ & ->).
    repeat split.
  - intros st tr Hr. destruct (cb_init_ok _ _ _ _ _ _ Hr) as (_ & _ & _ & w & b & Hw & _ & _ & ->).
    repeat split. exists w. split; [exact Hw|reflexivity].
Qed.

Lemma live_state_invariant_witness :
  messages eth_one_receipt = [mkMessage zero "0.50000"] /\
  (balance eth_one_receipt = balance_previous eth_one_receipt /\
   buffer_wf (messages eth_one_receipt) /\
   forall e, fst (formatted_latest_buffer eth_one_receipt) <> Raise e).
Proof.
  split; [vm_compute; reflexivity|].
  exact (live_state_invariant eth_one_receipt
           (live_raw zero [lit "3.0"; lit "0.5"] eth_ro
              (live_eth lib_ok net_ok env_empty config_default [] eth_ro _ eq_refl))).
Defined.


Lemma network_failure_no_receipt_witness :
  let '(r, st1, _) := poll_cycle zero lib_ok net_down eth_ro in
  r = Ok tt /\ messages st1 = messages eth_ro /\ balance st1 = balance eth_ro /\
  balance_previous st1 = balance_previous eth_ro.
Proof.
  apply (network_failure_no_receipt zero lib_ok net_down eth_ro
           (live_eth lib_ok net_ok env_empty config_default [] eth_ro _ eq_refl)).
  simpl. split; [intros e H; injection H as <-; reflexivity|].
  split; [intros e H; injection H as <-; reflexivity|].
  left. eexists; reflexivity.
Defined.

Lemma first_poll_after_construction_witness :
  let '(r, st1, _) := poll_cycle zero lib_ok net_ok eth_ro in
  r = Ok tt /\ messages st1 = [] /\ balance st1 = balance eth_ro.
Proof.
  exact (proj1 (first_poll_after_construction zero lib_ok net_ok env_empty config_default [])
           eth_ro _ eq_refl ltac:(discriminate) ltac:(intros e H; discriminate)).
Defined.

Lemma coinbase_fetch_refreshes_witness :
  let '(r, st1, tr) := fetch_balance lib_ok net_ok cb_state "usdc" in
  r = cbw_balance cb_wallet0 "usdc" /\ backend st1 = Coinbase "wallet-1" cb_wallet0 /\
  get_wallet_address st1 = cbw_default_address cb_wallet0 /\
  balance st1 = balance cb_state /\ tr = [CbWalletFetch "wallet-1"; CbBalance "usdc"].
Proof.
  exact (proj1 (coinbase_fetch_refreshes lib_ok net_ok cb_state "usdc" "wallet-1" cb_wallet0 eq_refl)
           cb_wallet0 eq_refl).
Defined.

Lemma poll_raise_only_coinbase_witness :
  poll_cycle zero lib_ok net_down cb_state =
    (Raise "ConnectionError: connection refused", snd (fst (_poll lib_ok net_down cb_state)),
     snd (_poll lib_ok net_down cb_state))
  /\ ((exists wid w, backend sol_keyed = Coinbase wid w /\
         (cb_wallet_fetch net_sol_panic wid = Raise "pyo3_runtime.PanicException: invalid account data" \/
          exists w', cb_wallet_fetch net_sol_panic wid = Ok w' /\
                     cbw_balance w' "sol" = Raise "pyo3_runtime.PanicException: invalid account data"))
      \/ (is_Exception "pyo3_runtime.PanicException: invalid account data" = false /\
          sol_get_balance net_sol_panic "KeyPub111" = Raise "pyo3_runtime.PanicException: invalid account data")).
Proof.
  split.
  - exact (proj2 (proj2 (poll_raise_only_coinbase zero lib_ok net_down cb_state
                           "ConnectionError: connection refused" eq_refl))).
  - exact (proj1 (poll_raise_only_coinbase zero lib_ok net_sol_panic sol_keyed "pyo3_runtime.PanicException: invalid account data" eq_refl)).
Defined.

Lemma raw_to_text_reads_change_only_witness :
  raw_to_text zero [lit "2.5"] eth_ro = (Raise "IndexError: list index out of range", eth_ro).
Proof.
  exact (proj1 (raw_to_text_reads_change_only zero eth_ro) [lit "2.5"] ltac:(simpl; lia)).
Defined.

Lemma flush_logs_once_witness :
  exists s,
    let text := summary_text (primary_asset eth_one_receipt) s in
    formatted_latest_buffer eth_one_receipt =
      (Ok (Some (wrap_result (class_name eth_one_receipt) text)),
       set_buffer eth_one_receipt []
         (io_inputs eth_one_receipt ++
          [mkIOInput (class_name eth_one_receipt) text
             (timestamp (last [mkMessage zero "0.50000"] (mkMessage zero "0.50000")))])).
Proof.
  exact (proj2 (flush_logs_once eth_one_receipt
                  (live_raw zero [lit "3.0"; lit "0.5"] eth_ro
                     (live_eth lib_ok net_ok env_empty config_default [] eth_ro _ eq_refl)))
           (mkMessage zero "0.50000") [] eq_refl).
Defined.

Lemma read_only_sign_fails_witness :
  get_wallet_address eth_ro = "0xd8dA6BF26964aF9D7eEd9e03E53415D37aA96045"
  /\ sign_message lib_ok net_ok eth_ro "Test message" =
     (eth_ro, Ok (mkSignResult None "Test message" (get_wallet_address eth_ro) "failed"
                   (Some "No private key configured (read-only mode)")), []).
Proof.
  exact (proj1 (read_only_sign_fails lib_ok net_ok env_empty config_default [] "Test message")
           eth_ro _ eq_refl eq_refl).
Defined.

Lemma eth_key_identity_witness :
  get_wallet_address eth_split = "0xB0B" /\
  (forall msg r, snd (fst (sign_message lib_ok net_ok eth_split msg)) = Ok r ->
     (sign_status r = "success" -> address r = "0xA11CE") /\
     (sign_status r = "failed" -> address r = get_wallet_address eth_split)).
Proof.
  destruct (eth_key_identity lib_ok net_ok env_split config_default [] eth_split _ "0xA11CE"
              eq_refl eq_refl eq_refl) as (H1 & _ & H3 & _).
  split; [exact H1|exact H3].
Defined.

Lemma transfer_local_rejection_witness :
  exists e, transfer lib_ok net_ok sol_keyed "11111111111111111111111111111111" S754_nan "sol" =
    (sol_keyed, Ok (transfer_failed S754_nan "sol" "11111111111111111111111111111111" e), []).
Proof.
  exact (proj2 (proj2 (transfer_local_rejection lib_ok net_ok sol_keyed
                         "11111111111111111111111111111111" S754_nan "sol"))
           _ _ _ _ eq_refl ltac:(intros e H; discriminate) (or_introl eq_refl)).
Defined.

Lemma coinbase_wait_failure_witness :
  transfer lib_ok net_wait_fails cb_state "0x000000000000000000000000000000000000dEaD"
    (lit "0.001") "eth" =
  (cb_state, Ok (transfer_failed (lit "0.001") "eth" "0x000000000000000000000000000000000000dEaD"
                   "transfer not confirmed"), [CbTransfer; CbWait]).
Proof.
  exact (coinbase_wait_failure lib_ok net_wait_fails cb_state
           "0x000000000000000000000000000000000000dEaD" (lit "0.001") "eth"
           "wallet-1" cb_wallet0 "0xcb" "TimeoutError: transfer not confirmed"
           eq_refl eq_refl eq_refl).
Defined.

Lemma eth_init_failures_witness :
  run (eth_init lib_ok net_down env_empty config_default []) =
    (Raise ("Exception: Failed to connect to Ethereum at " ++ "https://eth.llamarpc.com"),
     [EthIsConnected]).
Proof.
  exact (proj1 (proj2 (eth_init_failures lib_ok net_down env_empty config_default [])
                  (or_introl eq_refl)) eq_refl).
Defined.

Lemma sol_cb_init_failures_witness :
  run (sol_init lib_ok net_down env_sol config_default []) =
    (Raise "ConnectionError: connection refused", [SolGetBalance "KeyPub111"])
  /\ run (sol_init lib_panic_key net_ok env_sol_badkey config_default []) =
    (Raise "pyo3_runtime.PanicException: called `Result::unwrap()` on an `Err` value", []).
Proof.
  split.
  - exact (proj1 (proj2 (proj2 (proj1 (sol_cb_init_failures lib_ok net_down env_sol
                                          config_default []) eq_refl)
                           (or_introl eq_refl)) "KeyPub111" eq_refl) _ eq_refl).
  - exact (proj1 (proj1 (sol_cb_init_failures lib_panic_key net_ok env_sol_badkey
                           config_default []) eq_refl) _ eq_refl eq_refl eq_refl).
Defined.

Lemma constructed_address_assets_witness :
  get_wallet_address eth_ro = "0xd8dA6BF26964aF9D7eEd9e03E53415D37aA96045"
  /\ get_supported_assets eth_ro = ["eth"]
  /\ primary_asset eth_ro = "eth" /\ io_inputs eth_ro = [].
Proof.
  exact (proj1 (constructed_address_assets lib_ok net_ok env_empty config_default [])
           eth_ro _ eq_refl).
Defined.

End PluginFacts.
